(** * CRM back end: quotation pricing, numbering, notes, follow-ups,
      business accounts and the team / user reassignment protocol.

    Shallow embedding of the controllers
      - quotationController.js  (calculator, create, update, follow-ups)
      - accountController.js    (create, update, follow-ups)
      - userController.js       (transferUser)
      - teamController.js       (createTeam, updateTeam)
    Every controller is a function from the request and the document store
    to a response and the new store.

    Conventions of the embedding
      - a JSON field that may be missing or null is a [js A];
      - a JavaScript number that carries money is an exact rational [Q]
        (the binary rounding of single floating-point operations is not
        modelled); [toFixed(2)] followed by [parseFloat] is rounding to
        hundredths, ties away from zero;
      - an ObjectId is a natural number [N]; a stored reference is an
        [option ObjectId], [None] being null;
      - a collection is a [gmap] from ObjectId to documents. *)

From Stdlib Require Import ZArith QArith Qround Lqa Lia Ascii String.
From Stdlib Require Import DecimalString DecimalN DecimalPos.
From stdpp Require Import base option strings list gmap.

Set Default Proof Using "Type".

(** ** JavaScript optional values *)

Inductive js (A : Type) : Type :=
  | undefined : js A
  | null : js A
  | val : A -> js A.
Arguments undefined {A}.
Arguments null {A}.
Arguments val {A} _.

(** [x !== null && x !== undefined] *)
Definition present {A} (x : js A) : bool :=
  match x with val _ => true | _ => false end.

(** [x !== null] alone: true for a missing field. *)
Definition notNull {A} (x : js A) : bool :=
  match x with null => false | _ => true end.

(** [x !== undefined] *)
Definition changed {A} (x : js A) : bool :=
  match x with undefined => false | _ => true end.

(** [x === "literal"] *)
Definition isString (x : js string) (lit : string) : bool :=
  match x with val s => String.eqb s lit | _ => false end.

(** Truthiness of an optional string: missing, null and "" are falsy. *)
Definition truthyString (x : js string) : bool :=
  match x with val s => negb (String.eqb s "") | _ => false end.

(** An ObjectId; as a request field it is a [js ObjectId] and, being a
    non-empty identifier, it is truthy whenever it is there. *)
Definition ObjectId := N.

Definition truthyId (x : js ObjectId) : bool := present x.

(** [x || null] for a reference, and the default parameter [x = null]. *)
Definition orNull (x : js ObjectId) : option ObjectId :=
  match x with val i => Some i | _ => None end.

(** An HTTP answer: the status code and the message (or error) text; the
    resource payload of a success is the store itself. *)
Record Response := { statusCode : nat; message : string }.

(** * Money / tax calculator (quotationController.js) *)

Module Money.

Local Open Scope Q_scope.

(** [x.toFixed(2)] read back by [parseFloat]: the integer n for which
    n / 100 is closest to |x|, the larger one on a tie, with the sign of x. *)
Definition toFixed2 (x : Q) : Q :=
  if Qle_bool 0 x
  then Qred (Qmake (Qfloor (x * 100 + (1 # 2))) 100)
  else Qred (- Qmake (Qfloor ((- x) * 100 + (1 # 2))) 100).

(** [amount || 0] on a number: zero is the only falsy rational. *)
Definition orZeroNum (amount : Q) : Q :=
  if Qeq_bool amount 0 then 0 else amount.

(** const formatCurrency = (amount) =>
      parseFloat(Number(amount || 0).toFixed(2)); *)
Definition formatCurrency (amount : Q) : Q := toFixed2 (orZeroNum amount).

(** [i.field || 0] for a field that may be missing or null. *)
Definition orZero (x : js Q) : Q :=
  match x with val q => orZeroNum q | _ => 0 end.

Record LineItem := {
  quantity : js Q;
  rate : js Q;
  gstPercentage : js Q
}.

Record GstBreakdown := {
  totalGst : Q;
  sgst : Q;
  cgst : Q;
  igst : Q
}.

(** items.reduce((sum, i) => sum + (i.quantity || 0) * (i.rate || 0), 0) *)
Definition calculateSubTotal (items : list LineItem) : Q :=
  fold_left (fun sum i => sum + orZero (quantity i) * orZero (rate i)) items 0.

(** The unrounded tax sum [totalCalculatedGst] of calculateTotalGst. *)
Definition totalCalculatedGst (items : list LineItem) : Q :=
  fold_left (fun sum i =>
      let itemTotal := orZero (quantity i) * orZero (rate i) in
      let gstRate := orZero (gstPercentage i) / 100 in
      sum + itemTotal * gstRate) items 0.

Definition calculateTotalGst (items : list LineItem) (gstType : js string)
  : GstBreakdown :=
  let total := totalCalculatedGst items in
  let '(s, c, i) :=
    if isString gstType "intrastate" then (total / 2, total / 2, 0)
    else if isString gstType "interstate" then (0, 0, total)
    else (0, 0, 0) in
  {| totalGst := formatCurrency total;
     sgst := formatCurrency s;
     cgst := formatCurrency c;
     igst := formatCurrency i |}.

Definition calculateTotal (subTotal : Q) (gstBreakdown : GstBreakdown)
    (gstType : js string)
    (manualGstAmount manualSgstPercentage manualCgstPercentage
     manualIgstPercentage : js Q) : Q :=
  let taxToUse :=
    match manualGstAmount with
    | val amount => amount
    | _ =>
      if isString gstType "intrastate"
         && (notNull manualSgstPercentage || notNull manualCgstPercentage)
      then
        let manualSgstValue :=
          match manualSgstPercentage with
          | val p => subTotal * (p / 100)
          | _ => sgst gstBreakdown
          end in
        let manualCgstValue :=
          match manualCgstPercentage with
          | val p => subTotal * (p / 100)
          | _ => cgst gstBreakdown
          end in
        manualSgstValue + manualCgstValue
      else
        match isString gstType "interstate", manualIgstPercentage with
        | true, val p => subTotal * (p / 100)
        | _, _ => totalGst gstBreakdown
        end
    end in
  formatCurrency (subTotal + taxToUse).

(** The total as create and update compute it from the items. *)
Definition quotationTotal (items : list LineItem) (gstType : js string)
    (mGst mSgst mCgst mIgst : js Q) : Q :=
  calculateTotal (calculateSubTotal items) (calculateTotalGst items gstType)
    gstType mGst mSgst mCgst mIgst.

End Money.

(** * JavaScript string and number primitives used by the controllers *)

Module JsString.

(** [s.split(sep)] for a one-character separator. *)
Fixpoint split (sep : ascii) (s : string) : list string :=
  match s with
  | EmptyString => [EmptyString]
  | String c r =>
      if Ascii.eqb c sep then EmptyString :: split sep r
      else match split sep r with
           | seg :: segs => String c seg :: segs
           | [] => [String c EmptyString]
           end
  end.

(** [arr.pop()] read as a string by its consumer: the last element. *)
Definition pop (segs : list string) : string := default EmptyString (last segs).

Definition isWhiteSpace (c : ascii) : bool :=
  let n := N_of_ascii c in
  ((9 <=? n) && (n <=? 13) || (n =? 32))%N.

Fixpoint trimStart (s : string) : string :=
  match s with
  | String c r => if isWhiteSpace c then trimStart r else s
  | EmptyString => s
  end.

(** Value of a character as a digit of the given radix (10 or 16). *)
Definition digitOf (radix : N) (c : ascii) : option N :=
  let n := N_of_ascii c in
  if ((48 <=? n) && (n <=? 57))%N then Some (n - 48)%N
  else if (radix =? 16)%N && ((97 <=? n) && (n <=? 102))%N then Some (n - 87)%N
  else if (radix =? 16)%N && ((65 <=? n) && (n <=? 70))%N then Some (n - 55)%N
  else None.

(** The value of the longest prefix of digits. *)
Fixpoint parseDigits (radix acc : N) (s : string) : N :=
  match s with
  | String c r =>
      match digitOf radix c with
      | Some d => parseDigits radix (acc * radix + d) r
      | None => acc
      end
  | EmptyString => acc
  end.

(** [parseInt(s)] without a radix argument; [None] is NaN.  Integers are
    exact, as JavaScript's are below 2^53. *)
Definition parseInt (s : string) : option Z :=
  let s1 := trimStart s in
  let '(sign, s2) :=
    match s1 with
    | String "-" r => ((-1)%Z, r)
    | String "+" r => (1%Z, r)
    | _ => (1%Z, s1)
    end in
  let '(radix, s3) :=
    match s2 with
    | String "0" (String "x" r) => (16%N, r)
    | String "0" (String "X" r) => (16%N, r)
    | _ => (10%N, s2)
    end in
  match s3 with
  | String c _ =>
      match digitOf radix c with
      | Some _ => Some (sign * Z.of_N (parseDigits radix 0 s3))%Z
      | None => None
      end
  | EmptyString => None
  end.

(** Decimal numeral of a natural number. *)
Definition decimal (n : N) : string := NilEmpty.string_of_uint (N.to_uint n).

(** [x.toString()] for an integer or NaN. *)
Definition numberToString (x : option Z) : string :=
  match x with
  | None => "NaN"
  | Some z => if (z <? 0)%Z then "-" ++ decimal (Z.abs_N z) else decimal (Z.abs_N z)
  end.

Fixpoint repeatChar (c : ascii) (n : nat) : string :=
  match n with
  | O => EmptyString
  | S n' => String c (repeatChar c n')
  end.

(** [s.padStart(width, c)] *)
Definition padStart (width : nat) (c : ascii) (s : string) : string :=
  repeatChar c (width - String.length s) ++ s.

End JsString.

(** * Quotation lifecycle (quotationController.js) *)

Module Quotations.

Import Money JsString.

(** A stored note and a note as it arrives in a request body. *)
Record Note := { text : js string; author : string; timestamp : Z }.

Record NoteInput := {
  n_text : js string;
  n_author : js string;
  n_timestamp : js Z
}.

Record FollowUp := {
  fu_date : js Z;
  fu_note : js string;
  fu_status : js string;
  fu_addedBy : js ObjectId;
  fu_timestamp : Z
}.

(** The quotation document, with the fields the controller computes or
    branches on (the customer snapshot and the validity dates are plain
    copies of request fields and are left out). *)
Record Quotation := {
  quotationNumber : js string;
  gstType : js string;
  items : list LineItem;
  subTotal : Q;
  gstBreakdown : GstBreakdown;
  total : Q;
  notes : list Note;
  followUps : list FollowUp;
  status : js string;
  manualGstAmount : js Q;
  manualSgstPercentage : js Q;
  manualCgstPercentage : js Q;
  manualIgstPercentage : js Q;
  createdAt : Z;
  updatedAt : Z
}.

(** What a request brings besides its body: the clock ([new Date()]), the
    acting user ([req.user?.name], [req.user?._id]) and the ObjectId the
    driver draws for a new document. *)
Record Env := {
  now : Z;
  userName : js string;
  userId : js ObjectId;
  newId : ObjectId
}.

Record CreateRequest := {
  r_items : js (list LineItem);
  r_gstType : js string;
  r_notes : js (list NoteInput);
  r_status : js string;
  r_manualGstAmount : js Q;
  r_manualSgstPercentage : js Q;
  r_manualCgstPercentage : js Q;
  r_manualIgstPercentage : js Q;
  r_quotationNumber : js string
}.

Record UpdateData := {
  u_notes : js (list NoteInput);
  u_items : js (list LineItem);
  u_gstType : js string;
  u_manualGstAmount : js Q;
  u_manualSgstPercentage : js Q;
  u_manualCgstPercentage : js Q;
  u_manualIgstPercentage : js Q;
  u_status : js string;
  u_quotationNumber : js string
}.

Record FollowUpBody := {
  b_date : js Z;
  b_note : js string;
  b_status : js string
}.

(** [a || b] where b is always there. *)
Definition orElse {A} (truthy : js A -> bool) (a : js A) (b : A) : A :=
  match a with
  | val x => if truthy a then x else b
  | _ => b
  end.

Definition truthyStamp (x : js Z) : bool :=
  match x with val t => negb (t =? 0)%Z | _ => false end.

(** note.author || req.user?.name || 'System' *)
Definition noteAuthor (e : Env) (a : js string) : string :=
  orElse truthyString a (orElse truthyString (userName e) "System").

(** The object create builds for every incoming note. *)
Definition noteWithDefaults (e : Env) (n : NoteInput) : Note :=
  {| text := n_text n;
     author := noteAuthor e (n_author n);
     timestamp := orElse truthyStamp (n_timestamp n) (now e) |}.

(** The most recently created of two documents. *)
Definition newer (a b : Quotation) : Quotation :=
  if (createdAt a <? createdAt b)%Z then b else a.

(** Quotation.findOne().sort({ createdAt: -1 }) *)
Definition findLatest (qs : gmap ObjectId Quotation) : option Quotation :=
  foldr (fun q acc => match acc with
                      | None => Some q
                      | Some b => Some (newer q b)
                      end) None (map_to_list qs).*2.

(** `Q-${(lastNum + 1).toString().padStart(5, '0')}` with
    lastNum = parseInt(last.split('-').pop()) *)
Definition nextQuotationNumber (last : string) : string :=
  let lastNum := parseInt (pop (split "-" last)) in
  "Q-" ++ padStart 5 "0" (numberToString ((fun n => n + 1)%Z <$> lastNum)).

Definition generateQuotationNumber (qs : gmap ObjectId Quotation) : string :=
  match findLatest qs with
  | Some lastQuotation =>
      match quotationNumber lastQuotation with
      | val last => if truthyString (val last)
                    then nextQuotationNumber last else "Q-00001"
      | _ => "Q-00001"
      end
  | None => "Q-00001"
  end.

(** The number create assigns. *)
Definition resolveQuotationNumber (quotationNumber : js string)
    (qs : gmap ObjectId Quotation) : string :=
  match quotationNumber with
  | val s => if truthyString quotationNumber then s
             else generateQuotationNumber qs
  | _ => generateQuotationNumber qs
  end.

(** Some other document of the collection carries this number (the
    duplicate-key error, code 11000, that create answers with 400). *)
Definition numberTaken (self : ObjectId) (num : js string)
    (qs : gmap ObjectId Quotation) : bool :=
  match num with
  | val s =>
      existsb (fun '(i, q) => negb (i =? self)%N && isString (quotationNumber q) s)
              (map_to_list qs)
  | _ => false
  end.

Section WithSchema.

(** models/Quotation.js is not part of the sources read here: the schema
    validation that [save] runs is a parameter. *)
Variable validate : Quotation -> bool.

Definition create (e : Env) (req : CreateRequest)
    (qs : gmap ObjectId Quotation) : Response * gmap ObjectId Quotation :=
  let failed := {| statusCode := 500;
                   message := "Failed to create quotation. Please try again later." |} in
  let finalQuotationNumber := resolveQuotationNumber (r_quotationNumber req) qs in
  match r_items req with
  | val items =>
      let gstType := r_gstType req in
      let subTotal := calculateSubTotal items in
      let gstBreakdown := calculateTotalGst items gstType in
      let total := calculateTotal subTotal gstBreakdown gstType
                     (r_manualGstAmount req) (r_manualSgstPercentage req)
                     (r_manualCgstPercentage req) (r_manualIgstPercentage req) in
      let newQuotation :=
        {| quotationNumber := val finalQuotationNumber;
           gstType := gstType;
           items := items;
           subTotal := subTotal;
           gstBreakdown := gstBreakdown;
           total := total;
           notes := match r_notes req with
                    | val ns => map (noteWithDefaults e) ns
                    | _ => []
                    end;
           followUps := [];
           status := val (orElse truthyString (r_status req) "Draft");
           manualGstAmount := r_manualGstAmount req;
           manualSgstPercentage := r_manualSgstPercentage req;
           manualCgstPercentage := r_manualCgstPercentage req;
           manualIgstPercentage := r_manualIgstPercentage req;
           createdAt := now e;
           updatedAt := now e |} in
      if negb (validate newQuotation) then (failed, qs)
      else if numberTaken (newId e) (val finalQuotationNumber) qs
              || bool_decide (is_Some (qs !! newId e))
      then ({| statusCode := 400;
               message := "A quotation with this number already exists. Please try again." |}, qs)
      else ({| statusCode := 201; message := "" |}, <[newId e := newQuotation]> qs)
  | _ => (failed, qs)
  end.

(** The notes update pushes: only an incoming note with a truthy text, and
    only its text, author and timestamp. *)
Definition pushedNotes (e : Env) (incoming : list NoteInput) : list Note :=
  map (noteWithDefaults e) (filter (fun n => truthyString (n_text n)) incoming).

Definition update (e : Env) (id : ObjectId) (updateData : UpdateData)
    (qs : gmap ObjectId Quotation) : Response * gmap ObjectId Quotation :=
  let failed := {| statusCode := 500;
                   message := "Failed to update quotation. Please try again later." |} in
  match qs !! id with
  | None => ({| statusCode := 404; message := "Quotation not found." |}, qs)
  | Some quotation =>
      (* merge incoming notes with existing notes *)
      let notes1 :=
        match u_notes updateData with
        | val ns => notes quotation ++ pushedNotes e ns
        | _ => notes quotation
        end in
      let itemsChanged := changed (u_items updateData) in
      let gstTypeChanged := changed (u_gstType updateData) in
      let manualGstAmountChanged := changed (u_manualGstAmount updateData) in
      let manualSgstPercentageChanged := changed (u_manualSgstPercentage updateData) in
      let manualCgstPercentageChanged := changed (u_manualCgstPercentage updateData) in
      let manualIgstPercentageChanged := changed (u_manualIgstPercentage updateData) in
      let recalculate := itemsChanged || gstTypeChanged || manualGstAmountChanged
                         || manualSgstPercentageChanged || manualCgstPercentageChanged
                         || manualIgstPercentageChanged in
      let itemsToUse :=
        if itemsChanged then u_items updateData else val (items quotation) in
      let gstTypeToUse :=
        if gstTypeChanged then u_gstType updateData else gstType quotation in
      let manualGstAmountToUse :=
        if manualGstAmountChanged then u_manualGstAmount updateData
        else manualGstAmount quotation in
      let manualSgstPercentageToUse :=
        if manualSgstPercentageChanged then u_manualSgstPercentage updateData
        else manualSgstPercentage quotation in
      let manualCgstPercentageToUse :=
        if manualCgstPercentageChanged then u_manualCgstPercentage updateData
        else manualCgstPercentage quotation in
      let manualIgstPercentageToUse :=
        if manualIgstPercentageChanged then u_manualIgstPercentage updateData
        else manualIgstPercentage quotation in
      match itemsToUse with
      | val itemsToUse =>
          let newSubTotal := calculateSubTotal itemsToUse in
          let newGstBreakdown := calculateTotalGst itemsToUse gstTypeToUse in
          let newTotal := calculateTotal newSubTotal newGstBreakdown gstTypeToUse
                            manualGstAmountToUse manualSgstPercentageToUse
                            manualCgstPercentageToUse manualIgstPercentageToUse in
          (* the remaining keys of the payload overwrite the document; of
             the keys modelled here these are status and quotationNumber
             (gstType and the manual fields were set above to the same
             values; items, totals, createdAt, notes are protected) *)
          let saved :=
            {| quotationNumber :=
                 if changed (u_quotationNumber updateData)
                 then u_quotationNumber updateData else quotationNumber quotation;
               gstType := if recalculate then gstTypeToUse else gstType quotation;
               items := if recalculate then itemsToUse else items quotation;
               subTotal := if recalculate then newSubTotal else subTotal quotation;
               gstBreakdown :=
                 if recalculate then newGstBreakdown else gstBreakdown quotation;
               total := if recalculate then newTotal else total quotation;
               notes := notes1;
               followUps := followUps quotation;
               status := if changed (u_status updateData)
                         then u_status updateData else status quotation;
               manualGstAmount :=
                 if recalculate then manualGstAmountToUse
                 else manualGstAmount quotation;
               manualSgstPercentage :=
                 if recalculate then manualSgstPercentageToUse
                 else manualSgstPercentage quotation;
               manualCgstPercentage :=
                 if recalculate then manualCgstPercentageToUse
                 else manualCgstPercentage quotation;
               manualIgstPercentage :=
                 if recalculate then manualIgstPercentageToUse
                 else manualIgstPercentage quotation;
               createdAt := createdAt quotation;
               updatedAt := now e |} in
          if negb (validate saved) || numberTaken id (quotationNumber saved) qs
          then (failed, qs)
          else ({| statusCode := 200; message := "" |}, <[id := saved]> qs)
      | _ => (failed, qs)   (* items.reduce on a value that is no array *)
      end
  end.

(** Writing a changed follow-up sequence back with [quotation.save()]. *)
Definition saveFollowUps (id : ObjectId) (quotation : Quotation)
    (fus : list FollowUp) (ok failure : string)
    (qs : gmap ObjectId Quotation) : Response * gmap ObjectId Quotation :=
  let saved :=
    {| quotationNumber := quotationNumber quotation;
       gstType := gstType quotation;
       items := items quotation;
       subTotal := subTotal quotation;
       gstBreakdown := gstBreakdown quotation;
       total := total quotation;
       notes := notes quotation;
       followUps := fus;
       status := status quotation;
       manualGstAmount := manualGstAmount quotation;
       manualSgstPercentage := manualSgstPercentage quotation;
       manualCgstPercentage := manualCgstPercentage quotation;
       manualIgstPercentage := manualIgstPercentage quotation;
       createdAt := createdAt quotation;
       updatedAt := updatedAt quotation |} in
  if validate saved
  then ({| statusCode := 200; message := ok |}, <[id := saved]> qs)
  else ({| statusCode := 500; message := failure |}, qs).

Definition notFound : Response :=
  {| statusCode := 404; message := "Follow-up not found." |}.

Definition addFollowUp (e : Env) (id : ObjectId) (body : FollowUpBody)
    (qs : gmap ObjectId Quotation) : Response * gmap ObjectId Quotation :=
  match qs !! id with
  | None => ({| statusCode := 404; message := "Quotation not found." |}, qs)
  | Some quotation =>
      let fu := {| fu_date := b_date body;
                   fu_note := b_note body;
                   fu_status := val (orElse truthyString (b_status body) "Pending");
                   fu_addedBy := userId e;
                   fu_timestamp := now e |} in
      saveFollowUps id quotation (followUps quotation ++ [fu])
        "Follow-up added successfully." "Failed to add follow-up." qs
  end.

(** The route parameter [index] is a canonical array index. *)
Definition updateFollowUp (id : ObjectId) (index : nat) (body : FollowUpBody)
    (qs : gmap ObjectId Quotation) : Response * gmap ObjectId Quotation :=
  match qs !! id with
  | None => (notFound, qs)
  | Some quotation =>
      match followUps quotation !! index with
      | None => (notFound, qs)
      | Some fu =>
          let fu' := {| fu_date := b_date body;
                        fu_note := b_note body;
                        fu_status := if changed (b_status body)
                                     then b_status body else fu_status fu;
                        fu_addedBy := fu_addedBy fu;
                        fu_timestamp := fu_timestamp fu |} in
          saveFollowUps id quotation (<[index := fu']> (followUps quotation))
            "Follow-up updated successfully." "Failed to update follow-up." qs
      end
  end.

Definition deleteFollowUp (id : ObjectId) (index : nat)
    (qs : gmap ObjectId Quotation) : Response * gmap ObjectId Quotation :=
  match qs !! id with
  | None => (notFound, qs)
  | Some quotation =>
      match followUps quotation !! index with
      | None => (notFound, qs)
      | Some _ =>
          (* followUps.splice(index, 1) *)
          saveFollowUps id quotation (delete index (followUps quotation))
            "Follow-up deleted successfully." "Failed to delete follow-up." qs
      end
  end.

End WithSchema.

(** exports.remove *)
Definition remove (id : ObjectId) (qs : gmap ObjectId Quotation)
  : Response * gmap ObjectId Quotation :=
  match qs !! id with
  | None => ({| statusCode := 404; message := "Quotation not found." |}, qs)
  | Some _ =>
      ({| statusCode := 200; message := "Quotation deleted successfully." |},
       delete id qs)
  end.

End Quotations.

(** * Users, teams and departments (userController.js, teamController.js) *)

Module Org.

Record User := {
  name : string;
  role : string;
  team : option ObjectId;
  department : option ObjectId;
  zone : option ObjectId
}.

Record Team := {
  t_name : js string;
  t_department : option ObjectId;
  teamLeader : option ObjectId;
  members : list ObjectId
}.

Record Department := { d_zone : option ObjectId }.

Record DB := {
  users : gmap ObjectId User;
  teams : gmap ObjectId Team;
  departments : gmap ObjectId Department;
  zones : gset ObjectId
}.

Definition withUsers (db : DB) (us : gmap ObjectId User) : DB :=
  {| users := us; teams := teams db;
     departments := departments db; zones := zones db |}.

Definition withTeams (db : DB) (ts : gmap ObjectId Team) : DB :=
  {| users := users db; teams := ts;
     departments := departments db; zones := zones db |}.

(** const updateUserTeamAndDepartment = async (userId, teamId = null,
      departmentId = null, zoneId = null) => { ...
        await User.findByIdAndUpdate(userId, update, { new: true }) }
    The helper of userController.js, updateUserTeamAndDepartmentAndZone,
    has the same body. *)
Definition updateUserTeamAndDepartment (userId : ObjectId)
    (teamId departmentId zoneId : option ObjectId) (db : DB) : DB :=
  withUsers db
    (alter (fun u => {| name := name u; role := role u; team := teamId;
                        department := departmentId; zone := zoneId |})
           userId (users db)).

Definition updateUserTeamAndDepartmentAndZone := updateUserTeamAndDepartment.

Record TransferBody := {
  newDepartmentId : js ObjectId;
  newTeamId : js ObjectId;
  newZoneId : js ObjectId
}.

(** [originalTeamId !== newTeamId] for an original team that is there. *)
Definition differsFrom (originalTeamId : ObjectId) (newTeamId : js ObjectId) : bool :=
  match newTeamId with
  | val t => negb (originalTeamId =? t)%N
  | _ => true
  end.

(** The original team as step 1 of transferUser saves it:
      originalTeam.members = originalTeam.members.filter(
        memberId => memberId.toString() !== userId);
      if (originalTeam.teamLeader
          && originalTeam.teamLeader.toString() === userId)
        originalTeam.teamLeader = null; *)
Definition withoutUser (userId : ObjectId) (originalTeam : Team) : Team :=
  {| t_name := t_name originalTeam;
     t_department := t_department originalTeam;
     teamLeader := if bool_decide (teamLeader originalTeam = Some userId)
                   then None else teamLeader originalTeam;
     members := filter (fun memberId => memberId ≠ userId)
                       (members originalTeam) |}.

(** Step 1 of transferUser: take the user out of the original team. *)
Definition unassignFromOriginalTeam (userId : ObjectId)
    (originalTeamId : option ObjectId) (newTeamId : js ObjectId) (db : DB) : DB :=
  match originalTeamId with
  | Some ot =>
      if differsFrom ot newTeamId then
        match teams db !! ot with
        | Some originalTeam =>
            withTeams db (<[ot := withoutUser userId originalTeam]> (teams db))
        | None => db
        end
      else db
  | None => db
  end.

Definition transferUser (userId : ObjectId) (body : TransferBody) (db : DB)
  : Response * DB :=
  match users db !! userId with
  | None => ({| statusCode := 404; message := "User not found." |}, db)
  | Some user =>
      let originalTeamId := team user in
      (* 1. unassign from original team if applicable *)
      let db1 := unassignFromOriginalTeam userId originalTeamId (newTeamId body) db in
      (* 2. assign to new team if provided *)
      let resolvedDepartmentId := orNull (newDepartmentId body) in
      let done (resolved : option ObjectId) (db2 : DB) :=
        ({| statusCode := 200; message := "User transferred successfully" |},
         updateUserTeamAndDepartmentAndZone userId (orNull (newTeamId body))
           resolved (orNull (newZoneId body)) db2) in
      match newTeamId body with
      | val nt =>
          match teams db1 !! nt with
          | None => ({| statusCode := 400; message := "New team not found." |}, db1)
          | Some newTeam =>
              let newTeam' :=
                {| t_name := t_name newTeam;
                   t_department := t_department newTeam;
                   teamLeader :=
                     if String.eqb (role user) "Team Leader"
                        && bool_decide (teamLeader newTeam = None)
                     then Some userId else teamLeader newTeam;
                   members :=
                     if bool_decide (userId ∈ members newTeam)
                     then members newTeam else members newTeam ++ [userId] |} in
              done (t_department newTeam)
                   (withTeams db1 (<[nt := newTeam']> (teams db1)))
          end
      | _ => done resolvedDepartmentId db1
      end
  end.

Record TeamBody := {
  b_name : js string;
  b_department : js ObjectId;
  b_teamLeader : js ObjectId;
  b_members : js (list ObjectId)
}.

(** [members || []] *)
Definition membersOrEmpty (m : js (list ObjectId)) : list ObjectId :=
  match m with val l => l | _ => [] end.

(** Team.findOne({ teamLeader: leader, _id: { $ne: except } }) finds a
    document. *)
Definition leadsAnotherTeam (leader : ObjectId) (except : option ObjectId)
    (ts : gmap ObjectId Team) : bool :=
  existsb (fun '(i, t) => bool_decide (teamLeader t = Some leader)
                          && negb (bool_decide (except = Some i)))
          (map_to_list ts).

(** Another team document carries the same name (the duplicate-key error
    the controllers answer with 400). *)
Definition nameTaken (self : option ObjectId) (n : js string)
    (ts : gmap ObjectId Team) : bool :=
  match n with
  | val s => existsb (fun '(i, t) => isString (t_name t) s
                                     && negb (bool_decide (self = Some i)))
                     (map_to_list ts)
  | _ => false
  end.

Definition bad (msg : string) : Response := {| statusCode := 400; message := msg |}.

(** The validation of a candidate team leader shared by createTeam and
    updateTeam; [None] when the candidate passes. *)
Definition checkLeader (leader : ObjectId) (except : option ObjectId) (db : DB)
  : option Response :=
  match users db !! leader with
  | None => Some (bad "Team Leader not found.")
  | Some l =>
      if negb (String.eqb (role l) "Team Leader")
      then Some (bad "Assigned user is not a Team Leader.")
      else if leadsAnotherTeam leader except (teams db)
      then Some (bad "This user is already a Team Leader for another team.")
      else None
  end.

Section WithTeamSchema.

(** models/Team.js is not part of the sources read here: its schema
    validation is a parameter; the unique team name is taken from the
    duplicate-key branch of the controllers' error handling. *)
Variable validTeam : Team -> bool.

Definition createTeam (newId : ObjectId) (body : TeamBody) (db : DB)
  : Response * DB :=
  match orNull (b_department body) with
  | None => (bad "Department not found.", db)
  | Some department =>
  match departments db !! department with
  | None => (bad "Department not found.", db)
  | Some existingDepartment =>
      (* departmentWithZone?.zone?._id || null, the zone being populated *)
      let zoneId :=
        match d_zone existingDepartment with
        | Some z => if bool_decide (z ∈ zones db) then Some z else None
        | None => None
        end in
      let leaderError :=
        match b_teamLeader body with
        | val teamLeader => checkLeader teamLeader None db
        | _ => None
        end in
      match leaderError with
      | Some r => (r, db)
      | None =>
          let newTeam := {| t_name := b_name body;
                            t_department := Some department;
                            teamLeader := orNull (b_teamLeader body);
                            members := membersOrEmpty (b_members body) |} in
          if negb (validTeam newTeam) then (bad "Team validation failed", db)
          else if nameTaken None (b_name body) (teams db)
                  || bool_decide (is_Some (teams db !! newId))
          then (bad "Team with this name already exists.", db)
          else
            let db1 := withTeams db (<[newId := newTeam]> (teams db)) in
            let assign (id : ObjectId) (d : DB) :=
              updateUserTeamAndDepartment id (Some newId) (Some department) zoneId d in
            let db2 :=
              match b_teamLeader body with
              | val teamLeader => assign teamLeader db1
              | _ => db1
              end in
            ({| statusCode := 201; message := "" |},
             foldl (fun d memberId => assign memberId d) db2
                   (membersOrEmpty (b_members body)))
      end
  end
  end.



End WithTeamSchema.

Definition deleteTeam (teamId : ObjectId) (db : DB) : Response * DB :=
  match teams db !! teamId with
  | None => ({| statusCode := 404; message := "Team not found" |}, db)
  | Some deletedTeam =>
      let db1 := withTeams db (delete teamId (teams db)) in
      let db2 :=
        match teamLeader deletedTeam with
        | Some leader => updateUserTeamAndDepartment leader None None None db1
        | None => db1
        end in
      ({| statusCode := 200; message := "Team deleted successfully" |},
       foldl (fun d memberId =>
                updateUserTeamAndDepartment memberId None None None d)
             db2 (members deletedTeam))
  end.

End Org.

(** * Regular expressions: the fragment of the pattern language that a
      business name placed between ^ and $ can spell.  Subjects are
      matched byte by byte: this is what the pattern matches on subjects
      of ASCII characters without a line terminator. *)

Module Regex.

Inductive regex : Type :=
  | Eps : regex
  | Chr : ascii -> regex
  | Any : regex
  | Bol : regex
  | Eol : regex
  | Seq : regex -> regex -> regex
  | Alt : regex -> regex -> regex
  | Star : regex -> regex.

(** Case folding of the [i] flag on ASCII letters. *)
Definition fold (c : ascii) : ascii :=
  let n := N_of_ascii c in
  if ((65 <=? n) && (n <=? 90))%N then ascii_of_N (n + 32) else c.

Fixpoint foldString (s : string) : string :=
  match s with
  | String c r => String (fold c) (foldString r)
  | EmptyString => EmptyString
  end.

Definition sameChar (ignoreCase : bool) (a b : ascii) : bool :=
  if ignoreCase then Ascii.eqb (fold a) (fold b) else Ascii.eqb a b.

Definition lineTerminator (c : ascii) : bool :=
  let n := N_of_ascii c in ((n =? 10) || (n =? 13))%N.

Section Matching.

Variable ignoreCase : bool.
(** Length of the whole subject: ^ holds where nothing is consumed yet. *)
Variable whole : nat.

(** Backtracking matcher in continuation-passing style: [matches r s k]
    holds when r matches a prefix of s and k accepts the rest. *)
Fixpoint matches (r : regex) (s : string) (k : string -> bool) : bool :=
  match r with
  | Eps => k s
  | Chr c =>
      match s with
      | String d rest => sameChar ignoreCase c d && k rest
      | EmptyString => false
      end
  | Any =>
      match s with
      | String d rest => negb (lineTerminator d) && k rest
      | EmptyString => false
      end
  | Bol => (String.length s =? whole)%nat && k s
  | Eol => match s with EmptyString => k s | _ => false end
  | Seq a b => matches a s (fun rest => matches b rest k)
  | Alt a b => matches a s k || matches b s k
  | Star a =>
      (fix star (n : nat) (s : string) {struct n} : bool :=
         match n with
         | O => k s
         | S n' =>
             matches a s (fun rest =>
               (String.length rest <? String.length s)%nat && star n' rest)
             || k s
         end) (S (String.length s)) s
  end.

(** A match may start at any offset of the subject. *)
Fixpoint search (r : regex) (s : string) : bool :=
  matches r s (fun _ => true)
  || match s with
     | String _ rest => search r rest
     | EmptyString => false
     end.

End Matching.

(** [new RegExp(pattern, flags).test(subject)] with flags "i" or "". *)
Definition test (ignoreCase : bool) (r : regex) (subject : string) : bool :=
  search ignoreCase (String.length subject) r subject.

Definition isQuantifier (c : ascii) : bool :=
  Ascii.eqb c "*" || Ascii.eqb c "+" || Ascii.eqb c "?".

Definition isSyntaxChar (c : ascii) : bool :=
  existsb (Ascii.eqb c)
    ["^"; "$"; "\"; "."; "*"; "+"; "?"; "("; ")"; "["; "]"; "{"; "}"; "|"; "/"]%char.

(** A quantifier, possibly lazy, behind an atom; [None] for a second
    quantifier or a brace. *)
Definition quantified (atom : regex) (s : string) : option (regex * string) :=
  let lazy (rest : string) : string :=
    match rest with String "?" rest' => rest' | _ => rest end in
  let '(r, rest) :=
    match s with
    | String "*" rest => (Star atom, lazy rest)
    | String "+" rest => (Seq atom (Star atom), lazy rest)
    | String "?" rest => (Alt atom Eps, lazy rest)
    | _ => (atom, s)
    end in
  match rest with
  | String c _ => if isQuantifier c || Ascii.eqb c "{" then None else Some (r, rest)
  | EmptyString => Some (r, rest)
  end.

(** An assertion takes no quantifier. *)
Definition unquantified (r : regex) (s : string) : option (regex * string) :=
  match s with
  | String c _ => if isQuantifier c || Ascii.eqb c "{" then None else Some (r, s)
  | EmptyString => Some (r, s)
  end.

(** Recursive-descent parser: disjunction, alternative, term.  [None]
    stands for a pattern that is refused (SyntaxError) or that uses syntax
    outside the fragment (classes, braces, (?...) groups, escapes other
    than of a syntax character). *)
Fixpoint parseDisjunction (fuel : nat) (s : string) : option (regex * string) :=
  match fuel with
  | O => None
  | S fuel' =>
      match parseAlternative fuel' s with
      | Some (r, String "|" rest) =>
          match parseDisjunction fuel' rest with
          | Some (r2, rest2) => Some (Alt r r2, rest2)
          | None => None
          end
      | other => other
      end
  end
with parseAlternative (fuel : nat) (s : string) : option (regex * string) :=
  match fuel with
  | O => None
  | S fuel' =>
      match s with
      | EmptyString => Some (Eps, s)
      | String "|" _ => Some (Eps, s)
      | String ")" _ => Some (Eps, s)
      | _ =>
          match parseTerm fuel' s with
          | Some (t, rest) =>
              match parseAlternative fuel' rest with
              | Some (r, rest') => Some (Seq t r, rest')
              | None => None
              end
          | None => None
          end
      end
  end
with parseTerm (fuel : nat) (s : string) : option (regex * string) :=
  match fuel with
  | O => None
  | S fuel' =>
      match s with
      | EmptyString => None
      | String "^" rest => unquantified Bol rest
      | String "$" rest => unquantified Eol rest
      | String "." rest => quantified Any rest
      | String "\" (String c rest) =>
          if isSyntaxChar c then quantified (Chr c) rest else None
      | String "(" (String "?" _) => None
      | String "(" rest =>
          match parseDisjunction fuel' rest with
          | Some (r, String ")" rest') => quantified r rest'
          | _ => None
          end
      | String c rest =>
          if isSyntaxChar c then None else quantified (Chr c) rest
      end
  end.

Definition parse (pattern : string) : option regex :=
  match parseDisjunction (3 * String.length pattern + 3) pattern with
  | Some (r, EmptyString) => Some r
  | _ => None
  end.

End Regex.

(** * Business accounts (accountController.js, BusinessAccount.js) *)

Module Accounts.

(** noteSchema: three optional strings. *)
Record Note := {
  text : js string;
  timestamp : js string;
  author : js string
}.

(** followUpSchema.  A status that was written as [undefined] is not
    stored: [None]. *)
Record FollowUp := {
  date : js Z;
  note : js string;
  addedBy : option ObjectId;
  f_status : option string;
  f_createdAt : Z
}.

(** The paths of businessAccountSchema that the controller branches on.
    [isCustomer] is written by the controller but is no path of the schema;
    [undefined] is a document without it. *)
Record Account := {
  businessName : js string;
  contactName : js string;
  contactNumber : js string;
  status : string;
  isCustomer : js bool;
  assignedTo : option ObjectId;
  notes : list Note;
  followUps : list FollowUp;
  updatedAt : Z
}.

(** A request body of create and update.  A status, when it is sent, is a
    string. *)
Record AccountData := {
  d_businessName : js string;
  d_contactName : js string;
  d_contactNumber : js string;
  d_status : option string;
  d_assignedTo : js ObjectId
}.

Record NoteBody := {
  nb_text : js string;
  nb_timestamp : js string;
  nb_author : js string
}.

Record FollowUpBody := {
  fb_date : js Z;
  fb_note : js string;
  fb_addedBy : js ObjectId;
  fb_status : option string
}.

Definition inEnum (values : list string) (s : string) : bool :=
  existsb (String.eqb s) values.

Definition statusValues : list string :=
  ["Active"; "Pipeline"; "Quotations"; "Customer"; "Closed"; "TargetLeads"].

Definition followUpStatusValues : list string := ["pending"; "completed"].

Definition validStatus (values : list string) (s : option string) : bool :=
  match s with Some v => inEnum values v | None => true end.

(** date and note are required; a required string is not empty. *)
Definition validFollowUp (f : FollowUp) : bool :=
  present (date f) && truthyString (note f)
  && validStatus followUpStatusValues (f_status f).

(** The validation [save] runs on the whole document. *)
Definition validAccount (a : Account) : bool :=
  truthyString (businessName a) && truthyString (contactName a)
  && truthyString (contactNumber a) && inEnum statusValues (status a)
  && forallb validFollowUp (followUps a).

(** [runValidators] of findByIdAndUpdate: only the paths of the update. *)
Definition validUpdate (data : AccountData) : bool :=
  (negb (changed (d_businessName data)) || truthyString (d_businessName data))
  && (negb (changed (d_contactName data)) || truthyString (d_contactName data))
  && (negb (changed (d_contactNumber data)) || truthyString (d_contactNumber data))
  && validStatus statusValues (d_status data).

(** The unique index on businessName: another document has this very
    name (error code 11000, which is no ValidationError). *)
Definition duplicateKey (self : option ObjectId) (n : js string)
    (accounts : gmap ObjectId Account) : bool :=
  match n with
  | val s => existsb (fun '(i, a) => isString (businessName a) s
                                     && negb (bool_decide (self = Some i)))
                     (map_to_list accounts)
  | _ => false
  end.

(** `${x}` *)
Definition templateString (x : js string) : string :=
  match x with
  | undefined => "undefined"
  | null => "null"
  | val s => s
  end.

(** The source text of the pattern that create builds. *)
Definition namePattern (n : js string) : string :=
  "^" ++ templateString n ++ "$".

(** BusinessAccount.findOne({ businessName: { $regex: r } }) *)
Definition findOneByName (r : Regex.regex) (accounts : gmap ObjectId Account)
  : option (ObjectId * Account) :=
  List.find (fun '(_, a) => match businessName a with
                            | val s => Regex.test true r s
                            | _ => false
                            end)
            (map_to_list accounts).

Definition conflictMessage (assignee : option Org.User) : string :=
  "An account with this business name already exists. It is currently assigned to "
  ++ match assignee with
     | Some u => Org.name u
     | None => "an unassigned user"
     end ++ ".".

Definition answer (code : nat) (msg : string) : Response :=
  {| statusCode := code; message := msg |}.

Definition withFollowUps (now : Z) (a : Account) (fus : list FollowUp) : Account :=
  {| businessName := businessName a; contactName := contactName a;
     contactNumber := contactNumber a; status := status a;
     isCustomer := isCustomer a; assignedTo := assignedTo a;
     notes := notes a; followUps := fus; updatedAt := now |}.

(** [account.save()] with the pre-save hook that stamps updatedAt; the
    caller says what a failure is answered with. *)
Definition save (id : ObjectId) (a : Account) (ok failure : Response)
    (accounts : gmap ObjectId Account) : Response * gmap ObjectId Account :=
  if validAccount a && negb (duplicateKey (Some id) (businessName a) accounts)
  then (ok, <[id := a]> accounts)
  else (failure, accounts).

Section WithStrict.

(** Whether the model drops a key that is no path of its schema (the
    [strict] option, true unless a schema says otherwise). *)
Variable strict : bool.

Definition storedFlag (old : js bool) (flag : bool) : js bool :=
  if strict then old else val flag.

(** [None] is a business name whose pattern lies outside the fragment of
    [Regex.parse] (or is refused by it); nothing is said about those. *)
Definition create (now : Z) (newId : ObjectId) (users : gmap ObjectId Org.User)
    (data : AccountData) (accounts : gmap ObjectId Account)
  : option (Response * gmap ObjectId Account) :=
  r ← Regex.parse (namePattern (d_businessName data));
  Some
    match findOneByName r accounts with
    | Some (_, existingAccount) =>
        (answer 409 (conflictMessage (assignedTo existingAccount ≫= (users !!.))),
         accounts)
    | None =>
        let dataIsCustomer := bool_decide (d_status data = Some "Customer") in
        let newAccount :=
          {| businessName := d_businessName data;
             contactName := d_contactName data;
             contactNumber := d_contactNumber data;
             status := default "Active" (d_status data);
             isCustomer := storedFlag undefined dataIsCustomer;
             assignedTo := orNull (d_assignedTo data);
             notes := [];
             followUps := [];
             updatedAt := now |} in
        if negb (validAccount newAccount)
        then (answer 400 "BusinessAccount validation failed", accounts)
        else if duplicateKey None (d_businessName data) accounts
                || bool_decide (is_Some (accounts !! newId))
        then (answer 500 "E11000 duplicate key error", accounts)
        else (answer 201 "", <[newId := newAccount]> accounts)
    end.

Definition update (id : ObjectId) (data : AccountData)
    (accounts : gmap ObjectId Account) : Response * gmap ObjectId Account :=
  let dataIsCustomer := bool_decide (d_status data = Some "Customer") in
  if negb (validUpdate data)
  then (answer 400 "Validation failed", accounts)
  else
    match accounts !! id with
    | None => (answer 404 "Account not found", accounts)
    | Some a =>
        let keep {A} (new old : js A) : js A := if changed new then new else old in
        let updated :=
          {| businessName := keep (d_businessName data) (businessName a);
             contactName := keep (d_contactName data) (contactName a);
             contactNumber := keep (d_contactNumber data) (contactNumber a);
             status := default (status a) (d_status data);
             isCustomer := storedFlag (isCustomer a) dataIsCustomer;
             assignedTo := if changed (d_assignedTo data)
                           then orNull (d_assignedTo data) else assignedTo a;
             notes := notes a;
             followUps := followUps a;
             updatedAt := updatedAt a |} in
        if duplicateKey (Some id) (businessName updated) accounts
        then (answer 500 "E11000 duplicate key error", accounts)
        else (answer 200 "", <[id := updated]> accounts)
    end.

(** exports.delete: the soft delete. *)
Definition softDelete (now : Z) (id : ObjectId)
    (accounts : gmap ObjectId Account) : Response * gmap ObjectId Account :=
  match accounts !! id with
  | None => (answer 404 "Account not found", accounts)
  | Some a =>
      save id {| businessName := businessName a; contactName := contactName a;
                 contactNumber := contactNumber a; status := "Closed";
                 isCustomer := storedFlag (isCustomer a) false;
                 assignedTo := assignedTo a; notes := notes a;
                 followUps := followUps a; updatedAt := now |}
           (answer 200 "Account status set to Closed")
           (answer 500 "Server error during status update") accounts
  end.

End WithStrict.

Definition addNote (now : Z) (id : ObjectId) (body : NoteBody)
    (accounts : gmap ObjectId Account) : Response * gmap ObjectId Account :=
  match accounts !! id with
  | None => (answer 404 "Account not found", accounts)
  | Some a =>
      save id {| businessName := businessName a; contactName := contactName a;
                 contactNumber := contactNumber a; status := status a;
                 isCustomer := isCustomer a; assignedTo := assignedTo a;
                 notes := notes a ++ [{| text := nb_text body;
                                         timestamp := nb_timestamp body;
                                         author := nb_author body |}];
                 followUps := followUps a; updatedAt := now |}
           (answer 200 "Note added successfully")
           (answer 500 "Failed to add note") accounts
  end.

Definition addFollowUp (now : Z) (id : ObjectId) (body : FollowUpBody)
    (accounts : gmap ObjectId Account) : Response * gmap ObjectId Account :=
  match accounts !! id with
  | None => (answer 404 "Account not found", accounts)
  | Some a =>
      let fu := {| date := fb_date body;
                   note := fb_note body;
                   addedBy := orNull (fb_addedBy body);
                   f_status := Some (default "pending" (fb_status body));
                   f_createdAt := now |} in
      save id (withFollowUps now a (followUps a ++ [fu]))
           (answer 201 "Follow-up added successfully")
           (answer 500 "Failed to add follow-up") accounts
  end.

(** The route parameter [index] is a canonical array index. *)
Definition updateFollowUp (now : Z) (id : ObjectId) (index : nat)
    (body : FollowUpBody) (accounts : gmap ObjectId Account)
  : Response * gmap ObjectId Account :=
  match accounts !! id with
  | None => (answer 404 "Follow-up not found", accounts)
  | Some a =>
      match followUps a !! index with
      | None => (answer 404 "Follow-up not found", accounts)
      | Some fu =>
          let fu' := {| date := fb_date body;
                        note := fb_note body;
                        addedBy := addedBy fu;
                        f_status := fb_status body;
                        f_createdAt := f_createdAt fu |} in
          save id (withFollowUps now a (<[index := fu']> (followUps a)))
               (answer 200 "Follow-up updated")
               (answer 500 "Error updating follow-up") accounts
      end
  end.

Definition deleteFollowUp (now : Z) (id : ObjectId) (index : nat)
    (accounts : gmap ObjectId Account) : Response * gmap ObjectId Account :=
  match accounts !! id with
  | None => (answer 404 "Follow-up not found", accounts)
  | Some a =>
      match followUps a !! index with
      | None => (answer 404 "Follow-up not found", accounts)
      | Some _ =>
          save id (withFollowUps now a (delete index (followUps a)))
               (answer 200 "Follow-up deleted")
               (answer 500 "Error deleting follow-up") accounts
      end
  end.

End Accounts.

(** * Concrete stores and requests used by the examples below *)

Module Scenarios.

Local Open Scope Q_scope.

(** One unit at 0.004 taxed at 100 %: subtotal 0.004, tax 0.004. *)
Definition tinyItem : Money.LineItem :=
  {| Money.quantity := val 1; Money.rate := val (4 # 1000);
     Money.gstPercentage := val 100 |}.

(** One unit at 1 taxed at 1 %: subtotal 1, tax 0.01. *)
Definition onePercent : Money.LineItem :=
  {| Money.quantity := val 1; Money.rate := val 1;
     Money.gstPercentage := val 1 |}.

(** Two units at 100 taxed at 18 %: subtotal 200, tax 36. *)
Definition crane : Money.LineItem :=
  {| Money.quantity := val 2; Money.rate := val 100;
     Money.gstPercentage := val 18 |}.

Definition numbered (num : string) (created : Z) : Quotations.Quotation :=
  {| Quotations.quotationNumber := val num;
     Quotations.gstType := val "intrastate";
     Quotations.items := [];
     Quotations.subTotal := 0;
     Quotations.gstBreakdown := Money.calculateTotalGst [] (val "intrastate");
     Quotations.total := 0;
     Quotations.notes :=
       [{| Quotations.text := val "first call"; Quotations.author := "Ravi";
           Quotations.timestamp := created |}];
     Quotations.followUps := [];
     Quotations.status := val "Draft";
     Quotations.manualGstAmount := null;
     Quotations.manualSgstPercentage := null;
     Quotations.manualCgstPercentage := null;
     Quotations.manualIgstPercentage := null;
     Quotations.createdAt := created;
     Quotations.updatedAt := created |}.

(** The numeral 00042. *)
Definition d42 : Decimal.uint :=
  Decimal.D0 (Decimal.D0 (Decimal.D0 (Decimal.D4 (Decimal.D2 Decimal.Nil)))).

Definition oneQuotation : gmap ObjectId Quotations.Quotation :=
  {[ 1%N := numbered "Q-00042" 5 ]}.

Definition asha : Quotations.Env :=
  {| Quotations.now := 9; Quotations.userName := val "Asha";
     Quotations.userId := val 2%N; Quotations.newId := 2%N |}.

(** A note without text beside a note with text. *)
Definition blankNote : Quotations.NoteInput :=
  {| Quotations.n_text := val ""; Quotations.n_author := undefined;
     Quotations.n_timestamp := undefined |}.

Definition realNote : Quotations.NoteInput :=
  {| Quotations.n_text := val "sent revised offer";
     Quotations.n_author := undefined; Quotations.n_timestamp := undefined |}.

Definition onlyNotes (ns : list Quotations.NoteInput) : Quotations.UpdateData :=
  {| Quotations.u_notes := val ns; Quotations.u_items := undefined;
     Quotations.u_gstType := undefined;
     Quotations.u_manualGstAmount := undefined;
     Quotations.u_manualSgstPercentage := undefined;
     Quotations.u_manualCgstPercentage := undefined;
     Quotations.u_manualIgstPercentage := undefined;
     Quotations.u_status := undefined;
     Quotations.u_quotationNumber := undefined |}.

Definition callBack : Quotations.FollowUpBody :=
  {| Quotations.b_date := val 12%Z; Quotations.b_note := val "call back";
     Quotations.b_status := undefined |}.

Definition alice : Org.User :=
  {| Org.name := "Alice"; Org.role := "Team Leader"; Org.team := Some 10%N;
     Org.department := Some 20%N; Org.zone := Some 30%N |}.

Definition bob : Org.User :=
  {| Org.name := "Bob"; Org.role := "Employee"; Org.team := Some 10%N;
     Org.department := Some 20%N; Org.zone := Some 30%N |}.

Definition teamA : Org.Team :=
  {| Org.t_name := val "A"; Org.t_department := Some 20%N;
     Org.teamLeader := Some 1%N; Org.members := [1%N; 2%N] |}.

Definition teamB : Org.Team :=
  {| Org.t_name := val "B"; Org.t_department := Some 20%N;
     Org.teamLeader := None; Org.members := [] |}.

Definition office : Org.DB :=
  {| Org.users := {[ 1%N := alice; 2%N := bob ]};
     Org.teams := {[ 10%N := teamA; 11%N := teamB ]};
     Org.departments := {[ 20%N := {| Org.d_zone := Some 30%N |} ]};
     Org.zones := {[ 30%N ]} |}.

(** Bob is sent to team 99, which does not exist, and to zone 31. *)
Definition toMissingTeam : Org.TransferBody :=
  {| Org.newDepartmentId := undefined; Org.newTeamId := val 99%N;
     Org.newZoneId := val 31%N |}.




Definition acme : Accounts.Account :=
  {| Accounts.businessName := val "Acme (India)";
     Accounts.contactName := val "Ravi";
     Accounts.contactNumber := val "9000000000";
     Accounts.status := "Customer";
     Accounts.isCustomer := val true;
     Accounts.assignedTo := Some 1%N;
     Accounts.notes := [];
     Accounts.followUps := [];
     Accounts.updatedAt := 1 |}.

Definition acmeUpper : Accounts.AccountData :=
  {| Accounts.d_businessName := val "ACME (INDIA)";
     Accounts.d_contactName := val "Asha";
     Accounts.d_contactNumber := val "9111111111";
     Accounts.d_status := None;
     Accounts.d_assignedTo := undefined |}.

(** The document create stores for [acmeUpper]. *)
Definition acmeUpperStored (strict : bool) (now : Z) : Accounts.Account :=
  {| Accounts.businessName := val "ACME (INDIA)";
     Accounts.contactName := val "Asha";
     Accounts.contactNumber := val "9111111111";
     Accounts.status := "Active";
     Accounts.isCustomer := if strict then undefined else val false;
     Accounts.assignedTo := None;
     Accounts.notes := [];
     Accounts.followUps := [];
     Accounts.updatedAt := now |}.

(** An update that changes the contact only. *)
Definition newContact : Accounts.AccountData :=
  {| Accounts.d_businessName := undefined;
     Accounts.d_contactName := val "Asha";
     Accounts.d_contactNumber := undefined;
     Accounts.d_status := None;
     Accounts.d_assignedTo := undefined |}.

Definition visit : Accounts.FollowUpBody :=
  {| Accounts.fb_date := val 12%Z; Accounts.fb_note := val "site visit";
     Accounts.fb_addedBy := val 1%N; Accounts.fb_status := None |}.

End Scenarios.

(** * Vocabulary of the statements below *)

Module Vocabulary.

(** The stored totals of a quotation are those of its stored items, tax
    type and manual overrides. *)
Definition consistent (q : Quotations.Quotation) : Prop :=
  Quotations.subTotal q = Money.calculateSubTotal (Quotations.items q)
  /\ Quotations.gstBreakdown q
     = Money.calculateTotalGst (Quotations.items q) (Quotations.gstType q)
  /\ Quotations.total q
     = Money.quotationTotal (Quotations.items q) (Quotations.gstType q)
         (Quotations.manualGstAmount q) (Quotations.manualSgstPercentage q)
         (Quotations.manualCgstPercentage q) (Quotations.manualIgstPercentage q).

(** A user document after updateUserTeamAndDepartment wrote its three
    references. *)
Definition assigned (t d z : option ObjectId) (u : Org.User) : Org.User :=
  {| Org.name := Org.name u; Org.role := Org.role u; Org.team := t;
     Org.department := d; Org.zone := z |}.

(** A name without a character of the pattern syntax. *)
Fixpoint allPlain (s : string) : bool :=
  match s with
  | String c r => negb (Regex.isSyntaxChar c) && allPlain r
  | EmptyString => true
  end.

(** Text of ASCII characters without a line terminator: the subjects on
    which matching byte by byte, with the case of ASCII letters folded
    and $ at the very end, is what the pattern matches. *)
Fixpoint asciiText (s : string) : bool :=
  match s with
  | String c r =>
      (N_of_ascii c <? 128)%N && negb (Regex.lineTerminator c) && asciiText r
  | EmptyString => true
  end.

(** What a plain name spells between ^ and $: its characters, then the
    end of the input. *)
Fixpoint literal (s : string) : Regex.regex :=
  match s with
  | String c r => Regex.Seq (Regex.Chr c) (literal r)
  | EmptyString => Regex.Seq Regex.Eol Regex.Eps
  end.

(** Case analysis on the eight bits of a character. *)
Ltac each_char c := destruct c as [[] [] [] [] [] [] [] []].

End Vocabulary.

(** * More concrete stores and requests *)

Module Cases.

Import Scenarios.

(** One unit at 10.004 taxed at 18 %. *)
Definition fineItem : Money.LineItem :=
  {| Money.quantity := val 1%Q; Money.rate := val (10004 # 1000)%Q;
     Money.gstPercentage := val 18%Q |}.

(** Two quotations: Q-00042, created at 5, and Q-00007, created at 3, in
    either order of their ids. *)
Definition newestFirst : gmap ObjectId Quotations.Quotation :=
  <[ 1%N := numbered "Q-00042" 5 ]> {[ 2%N := numbered "Q-00007" 3 ]}.

Definition newestSecond : gmap ObjectId Quotations.Quotation :=
  <[ 1%N := numbered "Q-00007" 3 ]> {[ 2%N := numbered "Q-00042" 5 ]}.


Definition firstCall : Quotations.FollowUp :=
  {| Quotations.fu_date := val 12%Z; Quotations.fu_note := val "call back";
     Quotations.fu_status := val "Pending"; Quotations.fu_addedBy := val 2%N;
     Quotations.fu_timestamp := 9 |}.

(** Quotation Q-00042 with one follow-up. *)
Definition followedUp : Quotations.Quotation :=
  {| Quotations.quotationNumber := val "Q-00042";
     Quotations.gstType := val "intrastate";
     Quotations.items := [];
     Quotations.subTotal := 0%Q;
     Quotations.gstBreakdown := Money.calculateTotalGst [] (val "intrastate");
     Quotations.total := 0%Q;
     Quotations.notes := [];
     Quotations.followUps := [firstCall];
     Quotations.status := val "Draft";
     Quotations.manualGstAmount := null;
     Quotations.manualSgstPercentage := null;
     Quotations.manualCgstPercentage := null;
     Quotations.manualIgstPercentage := null;
     Quotations.createdAt := 5;
     Quotations.updatedAt := 9 |}.

Definition done : Quotations.FollowUpBody :=
  {| Quotations.b_date := val 13%Z; Quotations.b_note := val "called";
     Quotations.b_status := undefined |}.

Definition megaCrane : Accounts.Account :=
  {| Accounts.businessName := val "Mega Crane";
     Accounts.contactName := val "Ravi";
     Accounts.contactNumber := val "9000000000";
     Accounts.status := "Active";
     Accounts.isCustomer := undefined;
     Accounts.assignedTo := Some 1%N;
     Accounts.notes := [];
     Accounts.followUps :=
       [{| Accounts.date := val 12%Z; Accounts.note := val "site visit";
           Accounts.addedBy := Some 1%N; Accounts.f_status := Some "pending";
           Accounts.f_createdAt := 3 |}];
     Accounts.updatedAt := 3 |}.


Definition liftWorks : Accounts.AccountData :=
  {| Accounts.d_businessName := val "Lift Works";
     Accounts.d_contactName := val "Asha";
     Accounts.d_contactNumber := val "9111111111";
     Accounts.d_status := Some "Customer";
     Accounts.d_assignedTo := undefined |}.

(** A follow-up body without a date. *)
Definition undated : Accounts.FollowUpBody :=
  {| Accounts.fb_date := undefined; Accounts.fb_note := val "site visit";
     Accounts.fb_addedBy := val 1%N; Accounts.fb_status := None |}.

Definition revisit : Accounts.FollowUpBody :=
  {| Accounts.fb_date := val 14%Z; Accounts.fb_note := val "second visit";
     Accounts.fb_addedBy := undefined; Accounts.fb_status := None |}.

End Cases.

(** * Properties of the calculator *)

Module MoneyFacts.

Import Money Scenarios.
Local Open Scope Q_scope.

Lemma formatCurrency_whole_hundredths (x : Q) :
  exists n : Z, formatCurrency x = Qred (n # 100).
Proof.
  unfold formatCurrency, toFixed2.
  destruct (Qle_bool 0 (orZeroNum x)); eexists; [reflexivity|].
  match goal with |- Qred (- (?m # 100)) = _ =>
    change (- (m # 100)) with ((- m)%Z # 100) end.
  reflexivity.
Qed.

(** C1: when manualGstAmount is present, calculateTotal takes it as the
    absolute tax, so that the total is the rounded sum of the subtotal and
    manualGstAmount, whatever the gstType, the breakdown and the three
    manual percentages are; the same holds for the total that create and
    update compute from the items.  The total is a whole number of
    hundredths.  For two units at 100 (subtotal 200) with manualGstAmount
    50 and manual percentages of 5 the total is 250, for either tax type;
    for one unit at 10.004 the amount 0.003 gives 10.01 and the amount
    0.0004 gives 10. *)
Theorem calculateTotal_manualGstAmount
    (subTotal : Q) (gstBreakdown : GstBreakdown) (gstType : js string)
    (amount : Q) (mSgst mCgst mIgst : js Q) (items : list LineItem) :
  calculateTotal subTotal gstBreakdown gstType (val amount) mSgst mCgst mIgst
    = formatCurrency (subTotal + amount)
  /\ quotationTotal items gstType (val amount) mSgst mCgst mIgst
    = formatCurrency (calculateSubTotal items + amount)
  /\ (exists n : Z,
        quotationTotal items gstType (val amount) mSgst mCgst mIgst
          = Qred (n # 100))
  /\ quotationTotal [crane] (val "intrastate"%string)
       (val 50) (val 5) (val 5) (val 5) = 250
  /\ quotationTotal [crane] (val "interstate"%string)
       (val 50) (val 5) (val 5) (val 5) = 250
  /\ quotationTotal [Cases.fineItem] gstType (val (3 # 1000)) mSgst mCgst mIgst
     = 1001 # 100
  /\ quotationTotal [Cases.fineItem] gstType (val (4 # 10000)) mSgst mCgst mIgst
     = 10.
Proof.
  split; [reflexivity|]. split; [reflexivity|].
  split; [apply formatCurrency_whole_hundredths|].
  repeat split.
Qed.

Lemma totalGst_calculateTotalGst (items : list LineItem) (gstType : js string) :
  totalGst (calculateTotalGst items gstType)
    = formatCurrency (totalCalculatedGst items).
Proof.
  unfold calculateTotalGst.
  destruct (isString gstType "intrastate"), (isString gstType "interstate");
    reflexivity.
Qed.

(** C2 (refuted as worded): for an interstate quotation of one unit at
    0.004 taxed at 100 %, with no manual override, the total is not the
    rounded sum of the subtotal and the unrounded tax: the tax is rounded
    to 0 before it is added, and the total is 0 instead of 0.01. *)
Lemma calculateTotal_auto_not_raw :
  quotationTotal [tinyItem] (val "interstate"%string)
    undefined undefined undefined undefined
  <> formatCurrency (calculateSubTotal [tinyItem] + totalCalculatedGst [tinyItem]).
Proof. vm_compute. discriminate. Qed.

(** C2 (amended): when manualGstAmount and manualIgstPercentage are absent
    and, for an intrastate quotation, manualSgstPercentage and
    manualCgstPercentage are null, the total is the rounded sum of the
    subtotal and the tax total already rounded to hundredths. *)
Theorem calculateTotal_auto (items : list LineItem) (gstType : js string)
    (mGst mSgst mCgst mIgst : js Q) :
  present mGst = false ->
  present mIgst = false ->
  isString gstType "intrastate" = false \/ (mSgst = null /\ mCgst = null) ->
  quotationTotal items gstType mGst mSgst mCgst mIgst
    = formatCurrency (calculateSubTotal items
                      + formatCurrency (totalCalculatedGst items)).
Proof.
  intros HG HI HS. unfold quotationTotal, calculateTotal.
  rewrite totalGst_calculateTotalGst.
  assert (isString gstType "intrastate" && (notNull mSgst || notNull mCgst) = false)
    as -> by (destruct HS as [-> | [-> ->]]; [reflexivity | apply andb_false_r]).
  destruct mGst, mIgst; try discriminate;
    destruct (isString gstType "interstate"); reflexivity.
Qed.

Lemma calculateTotal_auto_witness :
  quotationTotal [crane] (val "intrastate"%string) null null null null
    = formatCurrency (calculateSubTotal [crane]
                      + formatCurrency (totalCalculatedGst [crane])).
Proof.
  apply (calculateTotal_auto [crane] (val "intrastate"%string) null null null null);
    [reflexivity | reflexivity | right; split; reflexivity].
Defined.

End MoneyFacts.

(** * Properties of the quotation numbering *)

Module NumberingFacts.

Import Money JsString Quotations Scenarios.

Lemma split_nonempty (sep : ascii) (s : string) : split sep s <> [].
Proof.
  destruct s as [|c r]; simpl; [discriminate|].
  destruct (Ascii.eqb c sep); [discriminate|].
  destruct (split sep r); discriminate.
Qed.

Lemma split_app (sep : ascii) (p s : string) :
  split sep (p ++ String sep s) = split sep p ++ split sep s.
Proof.
  induction p as [|c p IH]; simpl.
  - rewrite Ascii.eqb_refl. reflexivity.
  - destruct (Ascii.eqb c sep).
    + rewrite IH. reflexivity.
    + rewrite IH. pose proof (split_nonempty sep p) as Hne.
      destruct (split sep p); [contradiction|reflexivity].
Qed.

Lemma split_numeral (d : Decimal.uint) :
  split "-" (NilEmpty.string_of_uint d) = [NilEmpty.string_of_uint d].
Proof. induction d; simpl; try rewrite IHd; reflexivity. Qed.

Lemma pop_split_numeral (prefix : string) (d : Decimal.uint) :
  pop (split "-" (prefix ++ "-" ++ NilEmpty.string_of_uint d))
    = NilEmpty.string_of_uint d.
Proof.
  change ("-" ++ NilEmpty.string_of_uint d)%string
    with (String "-" (NilEmpty.string_of_uint d)).
  rewrite split_app, split_numeral. unfold pop.
  rewrite last_snoc. reflexivity.
Qed.

Lemma parseDigits_acc (d : Decimal.uint) (p : positive) :
  parseDigits 10 (Npos p) (NilEmpty.string_of_uint d)
    = Npos (Pos.of_uint_acc d p).
Proof.
  revert p. induction d; intros p; simpl; try reflexivity;
    match goal with
    | |- parseDigits _ ?a _ = N.pos (Pos.of_uint_acc _ ?q) =>
        replace a with (N.pos q) by lia; apply IHd
    end.
Qed.

Lemma parseDigits_numeral (d : Decimal.uint) :
  parseDigits 10 0 (NilEmpty.string_of_uint d) = N.of_uint d.
Proof.
  induction d; simpl; try reflexivity; try exact IHd;
    match goal with
    | |- parseDigits _ ?a _ = N.pos (Pos.of_uint_acc _ ?q) =>
        change a with (N.pos q); apply parseDigits_acc
    end.
Qed.

Lemma parseInt_numeral (d : Decimal.uint) :
  d <> Decimal.Nil ->
  parseInt (NilEmpty.string_of_uint d) = Some (Z.of_N (N.of_uint d)).
Proof.
  intros Hd. rewrite <- parseDigits_numeral.
  destruct d as [|d|d|d|d|d|d|d|d|d|d]; try contradiction;
    try (unfold parseInt; simpl; f_equal; lia).
  destruct d; unfold parseInt; simpl; f_equal; lia.
Qed.

Lemma numberToString_succ (n : N) :
  numberToString ((fun z => z + 1)%Z <$> Some (Z.of_N n)) = decimal (n + 1).
Proof.
  simpl. replace (Z.of_N n + 1)%Z with (Z.of_N (n + 1)) by lia.
  rewrite Zabs2N.id.
  destruct (Z.ltb_spec (Z.of_N (n + 1)) 0); [lia | reflexivity].
Qed.

Lemma nextQuotationNumber_numeral (prefix : string) (d : Decimal.uint) :
  d <> Decimal.Nil ->
  nextQuotationNumber (prefix ++ "-" ++ NilEmpty.string_of_uint d)
    = ("Q-" ++ padStart 5 "0" (decimal (N.of_uint d + 1)))%string.
Proof.
  intros Hd. unfold nextQuotationNumber.
  rewrite pop_split_numeral, (parseInt_numeral d Hd), numberToString_succ.
  reflexivity.
Qed.

Lemma resolve_not_supplied (supplied : js string) (qs : gmap ObjectId Quotation) :
  truthyString supplied = false ->
  resolveQuotationNumber supplied qs = generateQuotationNumber qs.
Proof.
  intros H. unfold resolveQuotationNumber.
  destruct supplied; try reflexivity. rewrite H. reflexivity.
Qed.

Lemma latest_of_list (l : list Quotation) (q : Quotation) :
  foldr (fun q acc => match acc with
                      | None => Some q
                      | Some b => Some (newer q b)
                      end) None l = Some q ->
  q ∈ l /\ forall q', q' ∈ l -> (createdAt q' <= createdAt q)%Z.
Proof.
  revert q. induction l as [|a l IH]; intros q; simpl; [discriminate|].
  destruct (foldr _ None l) as [b|] eqn:E.
  - specialize (IH b eq_refl) as [Hin Hmax]. intros [= <-]. unfold newer.
    destruct (Z.ltb_spec (createdAt a) (createdAt b)).
    + split; [right; exact Hin|]. intros q' Hq'.
      apply elem_of_cons in Hq' as [-> | Hq']; [lia | auto].
    + split; [left|]. intros q' Hq'.
      apply elem_of_cons in Hq' as [-> | Hq']; [lia|].
      specialize (Hmax q' Hq'). lia.
  - intros [= <-]. destruct l; [|simpl in E; destruct (foldr _ None l); discriminate].
    split; [left|]. intros q' Hq'. apply list_elem_of_singleton in Hq' as ->. lia.
Qed.

Lemma findLatest_most_recent (qs : gmap ObjectId Quotation) (k : ObjectId)
    (last : Quotation) :
  qs !! k = Some last ->
  (forall i q, qs !! i = Some q -> i <> k ->
               (createdAt q < createdAt last)%Z) ->
  findLatest qs = Some last.
Proof.
  intros Hk Hlt. unfold findLatest.
  assert (last ∈ (map_to_list qs).*2) as Hin.
  { apply list_elem_of_fmap. exists (k, last). split; [reflexivity|].
    apply elem_of_map_to_list, Hk. }
  destruct (foldr _ None (map_to_list qs).*2) as [q|] eqn:E.
  - destruct (latest_of_list _ _ E) as [Hq Hmax].
    apply list_elem_of_fmap in Hq as [[i a] [-> Hq]].
    apply elem_of_map_to_list in Hq. simpl in *.
    destruct (decide (i = k)) as [->|Hne]; [congruence|].
    specialize (Hlt i a Hq Hne). specialize (Hmax last Hin). lia.
  - destruct (map_to_list qs).*2 as [|a l]; [inversion Hin|].
    simpl in E. destruct (foldr _ None l); discriminate.
Qed.

(** C3: the number create assigns.  A supplied (non-empty) number is used
    as it is.  Without one, an empty collection gives Q-00001, and when the
    number of the quotation created after all others of the collection
    ends, after its last dash, in the decimal numeral d of value N (below
    2^53), the number is Q- followed by N+1 padded with zeros to five
    digits. *)
Theorem create_quotation_number (supplied : js string)
    (qs : gmap ObjectId Quotation) :
  (forall s, supplied = val s -> s <> ""%string ->
     resolveQuotationNumber supplied qs = s)
  /\ (truthyString supplied = false -> qs = ∅ ->
      resolveQuotationNumber supplied qs = "Q-00001"%string)
  /\ (forall (k : ObjectId) (last : Quotation) (prefix : string)
             (d : Decimal.uint),
        truthyString supplied = false ->
        qs !! k = Some last ->
        (forall i q, qs !! i = Some q -> i <> k ->
                     (createdAt q < createdAt last)%Z) ->
        quotationNumber last
          = val (prefix ++ "-" ++ NilEmpty.string_of_uint d)%string ->
        d <> Decimal.Nil ->
        (N.of_uint d < 2 ^ 53)%N ->
        resolveQuotationNumber supplied qs
          = ("Q-" ++ padStart 5 "0" (decimal (N.of_uint d + 1)))%string).
Proof.
  split; [|split].
  - intros s -> Hs. unfold resolveQuotationNumber, truthyString.
    destruct (String.eqb_spec s ""); [contradiction | reflexivity].
  - intros H ->. rewrite resolve_not_supplied by assumption.
    unfold generateQuotationNumber, findLatest.
    rewrite map_to_list_empty. reflexivity.
  - intros k last prefix d H Hk Hlt Hnum Hd _.
    rewrite resolve_not_supplied by assumption.
    unfold generateQuotationNumber.
    rewrite (findLatest_most_recent qs k last Hk Hlt), Hnum.
    assert (truthyString (val (prefix ++ "-" ++ NilEmpty.string_of_uint d)%string)
            = true) as -> by (destruct prefix; reflexivity).
    apply nextQuotationNumber_numeral, Hd.
Qed.

Lemma create_quotation_number_witness :
  resolveQuotationNumber (val "Q-7"%string) Cases.newestSecond = "Q-7"%string
  /\ resolveQuotationNumber undefined (∅ : gmap ObjectId Quotation)
     = "Q-00001"%string
  /\ resolveQuotationNumber undefined Cases.newestFirst = "Q-00043"%string
  /\ resolveQuotationNumber undefined Cases.newestSecond = "Q-00043"%string.
Proof.
  split; [|split; [|split]].
  - apply (proj1 (create_quotation_number (val "Q-7"%string) Cases.newestSecond)
             "Q-7"%string); [reflexivity | discriminate].
  - apply (proj1 (proj2 (create_quotation_number undefined ∅))); reflexivity.
  - apply (proj2 (proj2 (create_quotation_number undefined Cases.newestFirst))
             1%N (numbered "Q-00042" 5) "Q"%string d42);
      [reflexivity | reflexivity | | reflexivity | discriminate
      | vm_compute; reflexivity].
    intros i q Hq Hi. unfold Cases.newestFirst in Hq.
    apply lookup_insert_Some in Hq as [[? _]|[_ Hq]]; [congruence|].
    apply lookup_singleton_Some in Hq as [_ <-]. simpl. lia.
  - apply (proj2 (proj2 (create_quotation_number undefined Cases.newestSecond))
             2%N (numbered "Q-00042" 5) "Q"%string d42);
      [reflexivity | reflexivity | | reflexivity | discriminate
      | vm_compute; reflexivity].
    intros i q Hq Hi. unfold Cases.newestSecond in Hq.
    apply lookup_insert_Some in Hq as [[_ <-]|[_ Hq]]; [simpl; lia|].
    apply lookup_singleton_Some in Hq as [? _]. congruence.
Defined.

End NumberingFacts.

(** * Properties of the team and transfer protocol *)

Module OrgFacts.

Import Org Scenarios.

Lemma users_unassign userId originalTeamId newTeamId db :
  users (unassignFromOriginalTeam userId originalTeamId newTeamId db) = users db.
Proof.
  unfold unassignFromOriginalTeam.
  destruct originalTeamId as [ot|]; [|reflexivity].
  destruct (differsFrom ot newTeamId); [|reflexivity].
  destruct (teams db !! ot); reflexivity.
Qed.

(** C4 (the code departs from it): a transfer of a user who is in a team,
    to a team that does not exist, is answered with 400, but by then the
    original team has been saved without the user (and without its leader,
    if the user led it); the user document itself is untouched.  When the
    user was a member, the stored original team differs from what it was. *)
Theorem transferUser_missing_team_unassigns
    (userId : ObjectId) (body : TransferBody) (db : DB)
    (user : User) (ot nt : ObjectId) (originalTeam : Team) :
  users db !! userId = Some user ->
  team user = Some ot ->
  teams db !! ot = Some originalTeam ->
  newTeamId body = val nt ->
  teams db !! nt = None ->
  transferUser userId body db
    = ({| statusCode := 400; message := "New team not found." |},
       withTeams db (<[ot := withoutUser userId originalTeam]> (teams db)))
  /\ (userId ∈ members originalTeam ->
      teams (snd (transferUser userId body db)) !! ot <> teams db !! ot).
Proof.
  intros Hu Ht Hot Hnt Hmiss.
  assert (ot <> nt) as Hne by (intros ->; congruence).
  assert (transferUser userId body db
    = ({| statusCode := 400; message := "New team not found." |},
       withTeams db (<[ot := withoutUser userId originalTeam]> (teams db)))) as E.
  { unfold transferUser. rewrite Hu, Ht, Hnt. unfold unassignFromOriginalTeam.
    simpl. destruct (N.eqb_spec ot nt); [contradiction|]. simpl.
    rewrite Hot. simpl. rewrite lookup_insert_ne by assumption.
    rewrite Hmiss. reflexivity. }
  split; [exact E|].
  intros Hin. rewrite E. simpl. rewrite lookup_insert_eq, Hot.
  intros [= Heq]. apply (f_equal members) in Heq. simpl in Heq.
  rewrite <- Heq in Hin. apply list_elem_of_filter in Hin. tauto.
Qed.

Lemma transferUser_missing_team_unassigns_witness :
  transferUser 2%N toMissingTeam office
    = ({| statusCode := 400; message := "New team not found." |},
       withTeams office (<[10%N := withoutUser 2%N teamA]> (teams office)))
  /\ (2%N ∈ members teamA ->
      teams (snd (transferUser 2%N toMissingTeam office)) !! 10%N
        <> teams office !! 10%N).
Proof.
  apply (transferUser_missing_team_unassigns 2%N toMissingTeam office bob
           10%N 99%N teamA); reflexivity.
Defined.









End OrgFacts.

(** * Properties of the follow-up sequences *)

Module FollowUpFacts.

Import Scenarios.

(** C8: an update or a delete of a follow-up at an index that is not below
    the length of the sequence is answered with 404 and the store, hence
    the sequence, is as it was: for quotations and for accounts. *)
Theorem followUp_index_out_of_range (validate : Quotations.Quotation -> bool)
    (now : Z) (id : ObjectId) (index : nat)
    (qbody : Quotations.FollowUpBody) (abody : Accounts.FollowUpBody)
    (qs : gmap ObjectId Quotations.Quotation)
    (accounts : gmap ObjectId Accounts.Account) :
  (forall q, qs !! id = Some q -> length (Quotations.followUps q) <= index) ->
  (forall a, accounts !! id = Some a -> length (Accounts.followUps a) <= index) ->
  Quotations.updateFollowUp validate id index qbody qs
    = ({| statusCode := 404; message := "Follow-up not found." |}, qs)
  /\ Quotations.deleteFollowUp validate id index qs
    = ({| statusCode := 404; message := "Follow-up not found." |}, qs)
  /\ Accounts.updateFollowUp now id index abody accounts
    = ({| statusCode := 404; message := "Follow-up not found" |}, accounts)
  /\ Accounts.deleteFollowUp now id index accounts
    = ({| statusCode := 404; message := "Follow-up not found" |}, accounts).
Proof.
  intros Hq Ha.
  unfold Quotations.updateFollowUp, Quotations.deleteFollowUp,
    Accounts.updateFollowUp, Accounts.deleteFollowUp.
  destruct (qs !! id) as [q|] eqn:Eq, (accounts !! id) as [a|] eqn:Ea;
    try rewrite (proj2 (lookup_ge_None (Quotations.followUps q) index))
      by (apply Hq; reflexivity);
    try rewrite (proj2 (lookup_ge_None (Accounts.followUps a) index))
      by (apply Ha; reflexivity);
    repeat split.
Qed.

Lemma followUp_index_out_of_range_witness :
  Quotations.updateFollowUp (fun _ => true) 1%N 0 callBack oneQuotation
    = ({| statusCode := 404; message := "Follow-up not found." |}, oneQuotation)
  /\ Quotations.deleteFollowUp (fun _ => true) 1%N 0 oneQuotation
    = ({| statusCode := 404; message := "Follow-up not found." |}, oneQuotation)
  /\ Accounts.updateFollowUp 7 1%N 0 visit {[ 1%N := acme ]}
    = ({| statusCode := 404; message := "Follow-up not found" |}, {[ 1%N := acme ]})
  /\ Accounts.deleteFollowUp 7 1%N 0 {[ 1%N := acme ]}
    = ({| statusCode := 404; message := "Follow-up not found" |}, {[ 1%N := acme ]}).
Proof.
  apply (followUp_index_out_of_range (fun _ => true) 7 1%N 0 callBack visit
           oneQuotation {[ 1%N := acme ]}).
  - intros q Hq. vm_compute in Hq. injection Hq as <-. simpl. lia.
  - intros a Ha. vm_compute in Ha. injection Ha as <-. simpl. lia.
Defined.

End FollowUpFacts.

(** * Properties of the notes of a quotation *)

Module NotesFacts.

Import Money JsString Quotations Scenarios.

(** C9 (refuted as worded): an update of quotation 1 whose notes array
    holds one note with an empty text succeeds and stores the old notes
    alone: the incoming note is not appended. *)
Lemma update_skips_blank_note :
  statusCode (fst (update (fun _ => true) asha 1%N (onlyNotes [blankNote])
                     oneQuotation)) = 200
  /\ notes <$> snd (update (fun _ => true) asha 1%N (onlyNotes [blankNote])
                      oneQuotation) !! 1%N
     = Some (notes (numbered "Q-00042" 5))
  /\ notes (numbered "Q-00042" 5)
     <> notes (numbered "Q-00042" 5) ++ map (noteWithDefaults asha) [blankNote].
Proof. vm_compute. repeat split. discriminate. Qed.

(** C9 (amended): after a successful update whose payload carries a notes
    array, the stored notes are the old notes followed by the incoming
    notes that have a non-empty text, in their order, each with its text,
    its author (or the acting user's name, or System) and its timestamp (or
    now). *)
Theorem update_appends_notes (validate : Quotation -> bool) (e : Env)
    (id : ObjectId) (updateData : UpdateData) (qs : gmap ObjectId Quotation)
    (quotation : Quotation) (incoming : list NoteInput) :
  qs !! id = Some quotation ->
  u_notes updateData = val incoming ->
  statusCode (fst (update validate e id updateData qs)) = 200 ->
  exists saved,
    snd (update validate e id updateData qs) !! id = Some saved
    /\ notes saved = notes quotation ++ pushedNotes e incoming.
Proof.
  intros Hq Hn. unfold update. rewrite Hq, Hn.
  destruct (u_items updateData) as [| |its]; simpl; try discriminate;
    match goal with
    | |- context [if ?c then _ else _] => destruct c; [discriminate|]
    end;
    intros _; eexists; (split; [apply lookup_insert_eq | reflexivity]).
Qed.

Lemma update_appends_notes_witness :
  exists saved,
    snd (update (fun _ => true) asha 1%N (onlyNotes [blankNote; realNote])
           oneQuotation) !! 1%N = Some saved
    /\ notes saved
       = notes (numbered "Q-00042" 5)
         ++ [{| text := val "sent revised offer"; author := "Asha";
                timestamp := 9 |}].
Proof.
  apply (update_appends_notes (fun _ => true) asha 1%N
           (onlyNotes [blankNote; realNote]) oneQuotation
           (numbered "Q-00042" 5) [blankNote; realNote]);
    vm_compute; reflexivity.
Defined.

End NotesFacts.

(** * Properties of the business accounts *)

Module AccountFacts.

Import Accounts Scenarios.

(** C6 (the code departs from it): the schema of BusinessAccount.js
    declares no isCustomer path, so that the key the controller computes
    is dropped.  A create that succeeds stores the status of the request
    (or Active) and no flag: an account created with status Customer has
    status Customer and no isCustomer.  An update that succeeds stores the
    status of the payload (or the old one) and leaves the flag as it was.
    And were the key stored, an update without status of an account whose
    status is Customer would write false beside the status Customer. *)
Theorem isCustomer_is_not_stored (now : Z) (newId id : ObjectId)
    (users : gmap ObjectId Org.User) (data : AccountData)
    (accounts : gmap ObjectId Account) :
  (forall r accounts',
     create true now newId users data accounts = Some (r, accounts') ->
     statusCode r = 201 ->
     exists a, accounts' !! newId = Some a
       /\ status a = default "Active"%string (d_status data)
       /\ isCustomer a = undefined)
  /\ (forall a, accounts !! id = Some a ->
      statusCode (fst (update true id data accounts)) = 200 ->
      exists a', snd (update true id data accounts) !! id = Some a'
        /\ status a' = default (status a) (d_status data)
        /\ isCustomer a' = isCustomer a)
  /\ (forall strict a, accounts !! id = Some a ->
      status a = "Customer"%string ->
      d_status data = None ->
      statusCode (fst (update strict id data accounts)) = 200 ->
      exists a', snd (update strict id data accounts) !! id = Some a'
        /\ status a' = "Customer"%string
        /\ isCustomer a' = if strict then isCustomer a else val false).
Proof.
  split; [|split].
  - intros r accounts'. unfold create.
    destruct (Regex.parse _) as [re|]; [|discriminate]. simpl.
    destruct (findOneByName re accounts) as [[i b]|].
    { intros [= <- <-]. discriminate. }
    destruct (negb (validAccount _)); [intros [= <- <-]; discriminate|].
    destruct (_ || _); [intros [= <- <-]; discriminate|].
    intros [= <- <-] _. eexists. split; [apply lookup_insert_eq|].
    split; reflexivity.
  - intros a Ha. unfold update. rewrite Ha.
    destruct (negb (validUpdate data)); [discriminate|].
    match goal with
    | |- context [if ?c then (answer 500 _, _) else _] => destruct c; [discriminate|]
    end.
    intros _. eexists. split; [apply lookup_insert_eq|]. split; reflexivity.
  - intros strict a Ha Hs Hd. unfold update. rewrite Ha, Hd.
    destruct (negb (validUpdate data)); [discriminate|].
    match goal with
    | |- context [if ?c then (answer 500 _, _) else _] => destruct c; [discriminate|]
    end.
    intros _. eexists. split; [apply lookup_insert_eq|]. simpl.
    rewrite Hs. split; reflexivity.
Qed.

Lemma isCustomer_is_not_stored_witness :
  (exists accounts',
     create true 7 2%N (Org.users office) Cases.liftWorks {[ 1%N := Cases.megaCrane ]}
       = Some (answer 201 "", accounts')
     /\ exists a, accounts' !! 2%N = Some a
          /\ status a = "Customer"%string
          /\ isCustomer a = undefined)
  /\ exists a', snd (update false 1%N newContact {[ 1%N := acme ]}) !! 1%N = Some a'
       /\ status a' = "Customer"%string
       /\ isCustomer a' = val false.
Proof.
  split.
  - eexists. split; [vm_compute; reflexivity|].
    apply (proj1 (isCustomer_is_not_stored 7 2%N 1%N (Org.users office)
                    Cases.liftWorks {[ 1%N := Cases.megaCrane ]})
             (answer 201 "")); [vm_compute; reflexivity | reflexivity].
  - apply (proj2 (proj2 (isCustomer_is_not_stored 7 2%N 1%N (Org.users office)
                           newContact {[ 1%N := acme ]})) false acme);
      reflexivity.
Defined.

(** C7 (the code departs from it): with the account Acme (India) stored, a
    create request for ACME (INDIA), which differs from it in letter case
    only, is answered with 201 and a second account is stored: in the
    pattern the parentheses are a group, so that the pattern does not
    match the stored name. *)
Theorem create_case_variant_with_parentheses (strict : bool) (now : Z)
    (users : gmap ObjectId Org.User) :
  Regex.foldString "ACME (INDIA)" = Regex.foldString "Acme (India)"
  /\ create strict now 2%N users acmeUpper {[ 1%N := acme ]}
     = Some (answer 201 "",
             <[ 2%N := acmeUpperStored strict now ]> {[ 1%N := acme ]}).
Proof. split; [reflexivity|]. destruct strict; vm_compute; reflexivity. Qed.

End AccountFacts.

(** * Rounding, and the total under each override *)

Module RoundingFacts.

Import Money Scenarios.
Local Open Scope Q_scope.

Lemma orZeroNum_eq (x : Q) : orZeroNum x == x.
Proof.
  unfold orZeroNum. destruct (Qeq_bool x 0) eqn:E; [|reflexivity].
  apply Qeq_bool_iff in E. symmetry. exact E.
Qed.

Lemma Qle_bool_comp (x y : Q) : x == y -> Qle_bool 0 x = Qle_bool 0 y.
Proof.
  intros E.
  destruct (Qle_bool 0 x) eqn:A, (Qle_bool 0 y) eqn:B; try reflexivity.
  - apply Qle_bool_iff in A. rewrite E in A. apply Qle_bool_iff in A. congruence.
  - apply Qle_bool_iff in B. rewrite <- E in B. apply Qle_bool_iff in B. congruence.
Qed.

Lemma toFixed2_comp (x y : Q) : x == y -> toFixed2 x = toFixed2 y.
Proof.
  intros E. unfold toFixed2. rewrite (Qle_bool_comp x y E).
  destruct (Qle_bool 0 y); apply Qred_complete.
  - rewrite (Qfloor_comp (x * 100 + (1 # 2)) (y * 100 + (1 # 2))); [reflexivity|].
    rewrite E. reflexivity.
  - rewrite (Qfloor_comp (- x * 100 + (1 # 2)) (- y * 100 + (1 # 2))); [reflexivity|].
    rewrite E. reflexivity.
Qed.

Lemma Qfloor_unique (x : Q) (z : Z) :
  inject_Z z <= x -> x < inject_Z (z + 1) -> Qfloor x = z.
Proof.
  intros Hl Hu.
  pose proof (Qfloor_le x) as A. pose proof (Qlt_floor x) as B.
  assert (inject_Z (Qfloor x) < inject_Z (z + 1)) as C by lra.
  assert (inject_Z z < inject_Z (Qfloor x + 1)) as D
    by (rewrite inject_Z_plus in *; change (inject_Z 1) with 1 in *; lra).
  rewrite <- Zlt_Qlt in C, D. lia.
Qed.

Lemma hundredths (n : Z) : n # 100 == inject_Z n * (1 # 100).
Proof. unfold Qeq. simpl. lia. Qed.

Lemma Qfloor_hundredths (n : Z) : Qfloor ((n # 100) * 100 + (1 # 2)) = n.
Proof.
  apply Qfloor_unique; rewrite hundredths; try rewrite inject_Z_plus;
    change (inject_Z 1) with 1; lra.
Qed.

Lemma toFixed2_hundredths (n : Z) : toFixed2 (Qred (n # 100)) = Qred (n # 100).
Proof.
  rewrite (toFixed2_comp (Qred (n # 100)) (n # 100)) by apply Qred_correct.
  unfold toFixed2. destruct (Qle_bool 0 (n # 100)) eqn:E.
  - rewrite Qfloor_hundredths. reflexivity.
  - change (- (n # 100)) with ((- n)%Z # 100). rewrite Qfloor_hundredths.
    apply Qred_complete. simpl. unfold Qeq. simpl. lia.
Qed.

Lemma toFixed2_is_hundredths (x : Q) : exists n : Z, toFixed2 x = Qred (n # 100).
Proof.
  unfold toFixed2. destruct (Qle_bool 0 x); eexists; [reflexivity|].
  match goal with |- Qred (- (?m # 100)) = _ =>
    change (- (m # 100)) with ((- m)%Z # 100) end.
  reflexivity.
Qed.

(** X1: formatCurrency is idempotent: an amount that was rounded to
    hundredths is returned as it is. *)
Theorem formatCurrency_idempotent (x : Q) :
  formatCurrency (formatCurrency x) = formatCurrency x.
Proof.
  destruct (toFixed2_is_hundredths (orZeroNum x)) as [n E].
  change (formatCurrency x) with (toFixed2 (orZeroNum x)). rewrite E.
  unfold formatCurrency.
  rewrite (toFixed2_comp _ (Qred (n # 100))) by apply orZeroNum_eq.
  apply toFixed2_hundredths.
Qed.

Lemma rounding_error (x : Q) :
  formatCurrency x - x <= 1 # 200 /\ x - formatCurrency x <= 1 # 200.
Proof.
  unfold formatCurrency. pose proof (orZeroNum_eq x) as E.
  set (y := orZeroNum x) in *. clearbody y.
  unfold toFixed2. destruct (Qle_bool 0 y).
  - pose proof (Qfloor_le (y * 100 + (1 # 2))) as A.
    pose proof (Qlt_floor (y * 100 + (1 # 2))) as B.
    rewrite inject_Z_plus in B. change (inject_Z 1) with 1 in B.
    rewrite Qred_correct, hundredths. split; lra.
  - pose proof (Qfloor_le (- y * 100 + (1 # 2))) as A.
    pose proof (Qlt_floor (- y * 100 + (1 # 2))) as B.
    rewrite inject_Z_plus in B. change (inject_Z 1) with 1 in B.
    rewrite Qred_correct, hundredths. split; lra.
Qed.

(** X3: the breakdown of calculateTotalGst.  Intrastate: SGST and CGST are
    both the rounded half of the tax and IGST is 0.  Interstate: SGST and
    CGST are 0 and IGST is the rounded tax total.  Any other tax type:
    all three are 0 (the total is still the rounded tax). *)
Theorem calculateTotalGst_split (items : list LineItem) (gstType : js string) :
  (sgst (calculateTotalGst items (val "intrastate"%string))
     = formatCurrency (totalCalculatedGst items / 2)
   /\ cgst (calculateTotalGst items (val "intrastate"%string))
     = sgst (calculateTotalGst items (val "intrastate"%string))
   /\ igst (calculateTotalGst items (val "intrastate"%string)) = 0)
  /\ (sgst (calculateTotalGst items (val "interstate"%string)) = 0
      /\ cgst (calculateTotalGst items (val "interstate"%string)) = 0
      /\ igst (calculateTotalGst items (val "interstate"%string))
        = totalGst (calculateTotalGst items (val "interstate"%string)))
  /\ (isString gstType "intrastate" = false ->
      isString gstType "interstate" = false ->
      sgst (calculateTotalGst items gstType) = 0
      /\ cgst (calculateTotalGst items gstType) = 0
      /\ igst (calculateTotalGst items gstType) = 0).
Proof.
  split; [|split].
  - repeat split.
  - repeat split.
  - intros H1 H2. unfold calculateTotalGst. rewrite H1, H2. repeat split.
Qed.

Lemma calculateTotalGst_split_witness :
  sgst (calculateTotalGst [crane] null) = 0
  /\ cgst (calculateTotalGst [crane] null) = 0
  /\ igst (calculateTotalGst [crane] null) = 0.
Proof.
  apply (proj2 (proj2 (calculateTotalGst_split [crane] null))); reflexivity.
Defined.

(** X4: in an intrastate breakdown SGST plus CGST is within one and a half
    hundredths of the tax total: the halves are rounded on their own. *)
Theorem intrastate_halves_near_total (items : list LineItem) :
  let b := calculateTotalGst items (val "intrastate"%string) in
  sgst b + cgst b - totalGst b <= 3 # 200
  /\ totalGst b - (sgst b + cgst b) <= 3 # 200.
Proof.
  simpl. generalize (totalCalculatedGst items). intros t.
  destruct (rounding_error t) as [A B].
  destruct (rounding_error (t / 2)) as [C D].
  assert (t / 2 == t * (1 # 2)) as E by (unfold Qdiv; reflexivity).
  split; lra.
Qed.

End RoundingFacts.

(** * The remaining branches of calculateTotal *)

Module TotalFacts.

Import Money Scenarios.
Local Open Scope Q_scope.

(** X6: for an intrastate quotation without manualGstAmount, when neither
    manual SGST nor manual CGST percentage carries a value but one of them
    is missing rather than null, the tax is the sum of the two separately
    rounded halves of the computed tax, not the rounded total. *)
Theorem calculateTotal_missing_percentages (items : list LineItem)
    (mGst mSgst mCgst mIgst : js Q) :
  present mGst = false ->
  present mSgst = false ->
  present mCgst = false ->
  notNull mSgst || notNull mCgst = true ->
  quotationTotal items (val "intrastate"%string) mGst mSgst mCgst mIgst
    = formatCurrency (calculateSubTotal items
                      + (formatCurrency (totalCalculatedGst items / 2)
                         + formatCurrency (totalCalculatedGst items / 2))).
Proof.
  intros HG HS HC HN. unfold quotationTotal, calculateTotal.
  rewrite HN. destruct mGst, mSgst, mCgst; try discriminate; reflexivity.
Qed.

Lemma calculateTotal_missing_percentages_witness :
  quotationTotal [onePercent] (val "intrastate"%string)
    undefined undefined undefined undefined = 51 # 50.
Proof.
  apply (calculateTotal_missing_percentages [onePercent]
           undefined undefined undefined undefined); reflexivity.
Defined.

(** X7: without manualGstAmount, a manual IGST percentage of an interstate
    quotation, and manual SGST and CGST percentages of an intrastate one,
    are percentages of the subtotal; the computed tax and the percentages
    of the other tax type play no part. *)
Theorem calculateTotal_percentages (items : list LineItem)
    (mGst mSgst mCgst mIgst : js Q) (p s c : Q) :
  present mGst = false ->
  quotationTotal items (val "interstate"%string) mGst mSgst mCgst (val p)
    = formatCurrency (calculateSubTotal items + calculateSubTotal items * (p / 100))
  /\ quotationTotal items (val "intrastate"%string) mGst (val s) (val c) mIgst
    = formatCurrency (calculateSubTotal items
                      + (calculateSubTotal items * (s / 100)
                         + calculateSubTotal items * (c / 100))).
Proof.
  intros HG. destruct mGst; try discriminate; split; reflexivity.
Qed.

Lemma calculateTotal_percentages_witness :
  quotationTotal [crane] (val "interstate"%string) null null null (val 5) = 210
  /\ quotationTotal [crane] (val "intrastate"%string) null (val 6) (val 6) null
     = 224.
Proof.
  apply (calculateTotal_percentages [crane] null null null null 5 6 6).
  reflexivity.
Defined.

End TotalFacts.

(** * Strings and numbers of the quotation numbering *)

Module StringFacts.

Import JsString Quotations NumberingFacts.

Lemma length_repeatChar (c : ascii) (n : nat) : String.length (repeatChar c n) = n.
Proof. induction n as [|n IH]; simpl; [reflexivity | rewrite IH; reflexivity]. Qed.

Lemma length_append (a b : string) :
  String.length (a ++ b) = String.length a + String.length b.
Proof. induction a as [|c a IH]; simpl; [reflexivity | rewrite IH; reflexivity]. Qed.

(** X8: padStart returns a string of the width asked for, or of the
    length of its argument if that is longer, and returns an argument that
    is long enough as it is. *)
Theorem padStart_length (width : nat) (c : ascii) (s : string) :
  String.length (padStart width c s) = Nat.max width (String.length s)
  /\ (width <= String.length s -> padStart width c s = s).
Proof.
  unfold padStart. split.
  - rewrite length_append, length_repeatChar. lia.
  - intros H. replace (width - String.length s) with 0 by lia. reflexivity.
Qed.

Lemma padStart_length_witness :
  String.length (padStart 5 "0" "123456") = Nat.max 5 6
  /\ (5 <= String.length "123456" -> padStart 5 "0" "123456" = "123456"%string).
Proof. apply (padStart_length 5 "0" "123456"). Defined.

Lemma to_uint_nonnil (n : N) : N.to_uint n <> Decimal.Nil.
Proof.
  destruct n as [|p]; [discriminate|]. apply DecimalPos.Unsigned.to_uint_nonnil.
Qed.

Lemma parseInt_decimal (n : N) : parseInt (decimal n) = Some (Z.of_N n).
Proof.
  unfold decimal. rewrite parseInt_numeral by apply to_uint_nonnil.
  rewrite DecimalN.Unsigned.of_to. reflexivity.
Qed.

Lemma parseInt_minus_numeral (d : Decimal.uint) :
  d <> Decimal.Nil ->
  parseInt (String "-" (NilEmpty.string_of_uint d))
    = Some (- Z.of_N (N.of_uint d))%Z.
Proof.
  intros Hd. rewrite <- parseDigits_numeral.
  destruct d as [|d|d|d|d|d|d|d|d|d|d]; try contradiction;
    try (unfold parseInt; simpl; f_equal; lia).
  destruct d; unfold parseInt; simpl; f_equal; lia.
Qed.

(** X9: parseInt reads back the integer that toString wrote, whatever its
    sign (for the integers that a JavaScript number holds exactly). *)
Theorem parseInt_numberToString (z : Z) :
  (Z.abs z < 2 ^ 53)%Z ->
  parseInt (numberToString (Some z)) = Some z.
Proof.
  intros _. unfold numberToString. destruct (Z.ltb_spec z 0) as [Hneg|Hpos].
  - change ("-" ++ decimal (Z.abs_N z))%string
      with (String "-" (NilEmpty.string_of_uint (N.to_uint (Z.abs_N z)))).
    rewrite parseInt_minus_numeral by apply to_uint_nonnil.
    rewrite DecimalN.Unsigned.of_to. f_equal. lia.
  - rewrite parseInt_decimal. f_equal. lia.
Qed.

Lemma parseInt_numberToString_witness :
  parseInt (numberToString (Some (-42)%Z)) = Some (-42)%Z.
Proof. apply (parseInt_numberToString (-42)%Z). reflexivity. Defined.

Lemma padStart_numeral (n : N) :
  exists d, d <> Decimal.Nil
    /\ padStart 5 "0" (decimal n) = NilEmpty.string_of_uint d
    /\ N.of_uint d = n.
Proof.
  unfold padStart, decimal.
  generalize (5 - String.length (NilEmpty.string_of_uint (N.to_uint n))).
  intros k. induction k as [|k (d & Hd & E & V)].
  - exists (N.to_uint n). split; [apply to_uint_nonnil|].
    split; [reflexivity | apply DecimalN.Unsigned.of_to].
  - exists (Decimal.D0 d). split; [discriminate|].
    split; [simpl; rewrite <- E; reflexivity | exact V].
Qed.

(** X10: the numbering continues itself: from the number generated for n
    the next number generated is the one for n + 1 (as long as n + 1 is an
    integer that a JavaScript number holds exactly). *)
Theorem nextQuotationNumber_iterates (n : N) :
  (n + 1 < 2 ^ 53)%N ->
  nextQuotationNumber ("Q-" ++ padStart 5 "0" (decimal n))
    = ("Q-" ++ padStart 5 "0" (decimal (n + 1)))%string.
Proof.
  intros _. destruct (padStart_numeral n) as (d & Hd & -> & <-).
  apply (nextQuotationNumber_numeral "Q" d Hd).
Qed.

Lemma nextQuotationNumber_iterates_witness :
  nextQuotationNumber "Q-00099" = "Q-00100"%string.
Proof. apply (nextQuotationNumber_iterates 99%N). reflexivity. Defined.

(** X11: when what follows the last dash of the last number does not
    start with a number, the generated number is Q-00NaN; and the number
    generated after Q-00NaN is Q-00001 again. *)
Theorem nextQuotationNumber_not_a_number (last : string) :
  (parseInt (pop (split "-" last)) = None ->
   nextQuotationNumber last = "Q-00NaN"%string)
  /\ nextQuotationNumber "Q-00NaN" = "Q-00001"%string.
Proof.
  split; [|reflexivity]. intros H. unfold nextQuotationNumber. rewrite H.
  reflexivity.
Qed.

Lemma nextQuotationNumber_not_a_number_witness :
  nextQuotationNumber "QUOTE-A7" = "Q-00NaN"%string.
Proof.
  apply (proj1 (nextQuotationNumber_not_a_number "QUOTE-A7")). reflexivity.
Defined.

End StringFacts.

(** * The quotation store *)

Module QuotationFacts.

Import Money JsString Quotations Scenarios Vocabulary Cases.

Section WithSchema.

Variable validate : Quotation -> bool.

(** X12: create either answers 201, and then the id was free and the store
    gained one document under it, which carries the resolved number (a
    number no other document has), no follow-up, and totals that are
    those of its items and overrides; or it answers 400 or 500 and the
    store is as it was. *)
Theorem create_inserts_or_keeps (e : Env) (req : CreateRequest)
    (qs : gmap ObjectId Quotation) :
  (statusCode (fst (create validate e req qs)) = 201
   /\ qs !! newId e = None
   /\ exists q, snd (create validate e req qs) = <[newId e := q]> qs
        /\ quotationNumber q = val (resolveQuotationNumber (r_quotationNumber req) qs)
        /\ numberTaken (newId e) (quotationNumber q) qs = false
        /\ followUps q = []
        /\ consistent q)
  \/ ((statusCode (fst (create validate e req qs)) = 400
       \/ statusCode (fst (create validate e req qs)) = 500)
      /\ snd (create validate e req qs) = qs).
Proof.
  unfold create.
  destruct (r_items req) as [| |its]; try (right; split; [right|]; reflexivity).
  destruct (negb (validate _)); [right; split; [right|]; reflexivity|].
  destruct (numberTaken _ _ _) eqn:T; [right; split; [left|]; reflexivity|].
  destruct (bool_decide _) eqn:B; [right; split; [left|]; reflexivity|].
  left. simpl. split; [reflexivity|]. split.
  - apply bool_decide_eq_false in B. destruct (qs !! newId e); [|reflexivity].
    exfalso. apply B. eauto.
  - eexists. split; [reflexivity|]. simpl. repeat split. exact T.
Qed.

(** X13: a successful update, by a payload made of the keys of
    [UpdateData], of a quotation whose stored totals are those of its items
    and overrides stores a quotation of which the same is true, with
    createdAt and the follow-ups as they were and updatedAt set to now. *)
Theorem update_preserves_consistent (e : Env) (id : ObjectId)
    (updateData : UpdateData) (qs : gmap ObjectId Quotation) (q : Quotation) :
  qs !! id = Some q ->
  consistent q ->
  statusCode (fst (update validate e id updateData qs)) = 200 ->
  exists saved,
    snd (update validate e id updateData qs) = <[id := saved]> qs
    /\ consistent saved
    /\ createdAt saved = createdAt q
    /\ followUps saved = followUps q
    /\ updatedAt saved = now e.
Proof.
  intros Hq (H1 & H2 & H3). unfold update. rewrite Hq. cbv zeta.
  match goal with
  | |- context [if (?a || ?b || ?c || ?d || ?f || ?g)%bool then _ else _] =>
      remember (a || b || c || d || f || g)%bool as rc eqn:Hrc
  end.
  destruct (u_items updateData) as [| |its]; simpl in *; try discriminate;
    match goal with
    | |- context [if ?c then (_, qs) else _] => destruct c; [discriminate|]
    end;
    intros _; eexists; (split; [reflexivity|]); simpl.
  - destruct rc; repeat split; first [assumption | reflexivity].
  - subst rc. repeat split.
Qed.

(** X14: update answers 404 for an id that is not in the store, never
    touches a document other than the one addressed, and leaves the whole
    store as it was unless it answers 200. *)
Theorem update_frame (e : Env) (id : ObjectId) (updateData : UpdateData)
    (qs : gmap ObjectId Quotation) :
  (qs !! id = None ->
   update validate e id updateData qs
     = ({| statusCode := 404; message := "Quotation not found." |}, qs))
  /\ (forall other, other <> id ->
        snd (update validate e id updateData qs) !! other = qs !! other)
  /\ (statusCode (fst (update validate e id updateData qs)) <> 200 ->
      snd (update validate e id updateData qs) = qs).
Proof.
  unfold update. destruct (qs !! id) as [q|]; [|repeat split; congruence].
  split; [discriminate|].
  destruct (if changed (u_items updateData) then _ else _);
    try (split; [reflexivity | reflexivity]).
  cbv zeta.
  match goal with
  | |- context [if ?c then (_, qs) else _] => destruct c
  end; simpl.
  - split; reflexivity.
  - split; [|congruence]. intros other Ho. apply lookup_insert_ne. congruence.
Qed.

(** X15: a successful addFollowUp stores the old follow-ups followed by
    one new follow-up, which carries the date and note of the body, the
    status of the body or Pending, the acting user and the time of the
    request; notes, total and number are as they were. *)
Theorem addFollowUp_appends (e : Env) (id : ObjectId) (body : FollowUpBody)
    (qs : gmap ObjectId Quotation) (q : Quotation) :
  qs !! id = Some q ->
  statusCode (fst (addFollowUp validate e id body qs)) = 200 ->
  exists saved,
    snd (addFollowUp validate e id body qs) = <[id := saved]> qs
    /\ followUps saved
       = followUps q
         ++ [{| fu_date := b_date body; fu_note := b_note body;
                fu_status := val (orElse truthyString (b_status body) "Pending");
                fu_addedBy := userId e; fu_timestamp := now e |}]
    /\ notes saved = notes q /\ total saved = total q
    /\ quotationNumber saved = quotationNumber q.
Proof.
  intros Hq. unfold addFollowUp, saveFollowUps. rewrite Hq.
  destruct (validate _); [|discriminate].
  intros _. eexists. split; [reflexivity|]. repeat split.
Qed.

(** X16: a successful updateFollowUp at an index that holds a follow-up
    keeps the length of the sequence and every other position; the
    follow-up at the index takes date and note from the body, keeps its
    author and timestamp, and keeps its status unless the body brings
    one. *)
Theorem updateFollowUp_replaces (id : ObjectId) (index : nat)
    (body : FollowUpBody) (qs : gmap ObjectId Quotation) (q : Quotation)
    (old : FollowUp) :
  qs !! id = Some q ->
  followUps q !! index = Some old ->
  statusCode (fst (updateFollowUp validate id index body qs)) = 200 ->
  exists saved fu,
    snd (updateFollowUp validate id index body qs) = <[id := saved]> qs
    /\ length (followUps saved) = length (followUps q)
    /\ followUps saved !! index = Some fu
    /\ fu_date fu = b_date body /\ fu_note fu = b_note body
    /\ fu_status fu = (if changed (b_status body) then b_status body
                       else fu_status old)
    /\ fu_addedBy fu = fu_addedBy old /\ fu_timestamp fu = fu_timestamp old
    /\ (forall j, j <> index -> followUps saved !! j = followUps q !! j).
Proof.
  intros Hq Hi. unfold updateFollowUp, saveFollowUps. rewrite Hq, Hi.
  destruct (validate _); [|discriminate].
  intros _. eexists. eexists. split; [reflexivity|]. simpl.
  split; [apply length_insert|].
  split; [apply list_lookup_insert_eq, (lookup_lt_Some _ _ _ Hi)|].
  repeat split. intros j Hj. apply list_lookup_insert_ne. congruence.
Qed.

(** X17: a successful deleteFollowUp at an index that holds a follow-up
    stores the follow-ups before the index followed by those after it, one
    fewer than before; notes and total are as they were. *)
Theorem deleteFollowUp_removes (id : ObjectId) (index : nat)
    (qs : gmap ObjectId Quotation) (q : Quotation) (old : FollowUp) :
  qs !! id = Some q ->
  followUps q !! index = Some old ->
  statusCode (fst (deleteFollowUp validate id index qs)) = 200 ->
  exists saved,
    snd (deleteFollowUp validate id index qs) = <[id := saved]> qs
    /\ followUps saved = take index (followUps q) ++ drop (S index) (followUps q)
    /\ S (length (followUps saved)) = length (followUps q)
    /\ notes saved = notes q /\ total saved = total q.
Proof.
  intros Hq Hi. unfold deleteFollowUp, saveFollowUps. rewrite Hq, Hi.
  destruct (validate _); [|discriminate].
  intros _. eexists. split; [reflexivity|]. simpl.
  split; [apply delete_take_drop|].
  split; [|split; reflexivity].
  rewrite length_delete by eauto. apply lookup_lt_Some in Hi. lia.
Qed.

End WithSchema.

End QuotationFacts.

(** * The quotation store: instances, removal and the latest document *)

Module QuotationStoreFacts.

Import Money JsString Quotations Scenarios Vocabulary Cases.
Import NumberingFacts QuotationFacts.

Lemma update_preserves_consistent_witness :
  exists saved,
    snd (update (fun _ => true) asha 1%N (onlyNotes [realNote]) oneQuotation)
      = <[1%N := saved]> oneQuotation
    /\ consistent saved
    /\ createdAt saved = createdAt (numbered "Q-00042" 5)
    /\ followUps saved = followUps (numbered "Q-00042" 5)
    /\ updatedAt saved = now asha.
Proof.
  apply (update_preserves_consistent (fun _ => true) asha 1%N
           (onlyNotes [realNote]) oneQuotation (numbered "Q-00042" 5));
    [reflexivity | repeat split | reflexivity].
Defined.

Lemma addFollowUp_appends_witness :
  exists saved,
    snd (addFollowUp (fun _ => true) asha 1%N callBack oneQuotation)
      = <[1%N := saved]> oneQuotation
    /\ followUps saved = [firstCall]
    /\ notes saved = notes (numbered "Q-00042" 5)
    /\ total saved = total (numbered "Q-00042" 5)
    /\ quotationNumber saved = quotationNumber (numbered "Q-00042" 5).
Proof.
  apply (addFollowUp_appends (fun _ => true) asha 1%N callBack oneQuotation
           (numbered "Q-00042" 5)); reflexivity.
Defined.

Lemma updateFollowUp_replaces_witness :
  exists saved fu,
    snd (updateFollowUp (fun _ => true) 1%N 0 done {[ 1%N := followedUp ]})
      = <[1%N := saved]> {[ 1%N := followedUp ]}
    /\ length (followUps saved) = 1
    /\ followUps saved !! 0 = Some fu
    /\ fu_date fu = val 13%Z /\ fu_note fu = val "called"%string
    /\ fu_status fu = val "Pending"%string
    /\ fu_addedBy fu = val 2%N /\ fu_timestamp fu = 9%Z
    /\ (forall j, j <> 0 -> followUps saved !! j = followUps followedUp !! j).
Proof.
  apply (updateFollowUp_replaces (fun _ => true) 1%N 0 done
           {[ 1%N := followedUp ]} followedUp firstCall); reflexivity.
Defined.

Lemma deleteFollowUp_removes_witness :
  exists saved,
    snd (deleteFollowUp (fun _ => true) 1%N 0 {[ 1%N := followedUp ]})
      = <[1%N := saved]> {[ 1%N := followedUp ]}
    /\ followUps saved = []
    /\ S (length (followUps saved)) = 1
    /\ notes saved = notes followedUp /\ total saved = total followedUp.
Proof.
  apply (deleteFollowUp_removes (fun _ => true) 1%N 0 {[ 1%N := followedUp ]}
           followedUp firstCall); reflexivity.
Defined.

(** X18: remove answers 404 and keeps the store when the id is not in it;
    otherwise it answers 200 and the id is no longer in the store; no
    other document is touched. *)
Theorem remove_deletes (id : ObjectId) (qs : gmap ObjectId Quotation) :
  (qs !! id = None ->
   remove id qs = ({| statusCode := 404; message := "Quotation not found." |}, qs))
  /\ (is_Some (qs !! id) ->
      statusCode (fst (remove id qs)) = 200 /\ snd (remove id qs) !! id = None)
  /\ (forall other, other <> id -> snd (remove id qs) !! other = qs !! other).
Proof.
  unfold remove. destruct (qs !! id) as [q|] eqn:E.
  - split; [discriminate|]. split.
    + intros _. split; [reflexivity | apply lookup_delete_eq].
    + intros other Ho. apply lookup_delete_ne. congruence.
  - split; [reflexivity|]. split; [intros [? ?]; discriminate | reflexivity].
Qed.

(** X19: findLatest, the document the numbering starts from, finds
    nothing exactly when the store is empty, and what it finds is a
    document of the store that no document of the store was created
    after. *)
Theorem findLatest_is_latest (qs : gmap ObjectId Quotation) :
  (findLatest qs = None <-> qs = ∅)
  /\ (forall q, findLatest qs = Some q ->
        (exists i, qs !! i = Some q)
        /\ forall i q', qs !! i = Some q' -> (createdAt q' <= createdAt q)%Z).
Proof.
  unfold findLatest. split.
  - split.
    + intros H. destruct (map_to_list qs) as [|[i a] l] eqn:E.
      * apply map_to_list_empty_iff, E.
      * simpl in H.
        match type of H with
        | match ?x with _ => _ end = _ => destruct x; discriminate
        end.
    + intros ->. rewrite map_to_list_empty. reflexivity.
  - intros q H. apply latest_of_list in H as [Hin Hmax]. split.
    + apply list_elem_of_fmap in Hin as [[i a] [-> Hin]].
      exists i. apply elem_of_map_to_list. exact Hin.
    + intros i q' Hq'. apply Hmax. apply list_elem_of_fmap.
      exists (i, q'). split; [reflexivity|]. apply elem_of_map_to_list. exact Hq'.
Qed.

End QuotationStoreFacts.

(** * Teams: deletion, creation and transfer *)

Module TeamFacts.

Import Org Scenarios Vocabulary OrgFacts.

Lemma update_lookup (userId other : ObjectId) (t d z : option ObjectId) (db : DB) :
  users (updateUserTeamAndDepartment userId t d z db) !! other
  = if bool_decide (other = userId) then assigned t d z <$> users db !! other
    else users db !! other.
Proof.
  unfold updateUserTeamAndDepartment. simpl. case_bool_decide as E.
  - subst. apply lookup_alter_eq.
  - apply lookup_alter_ne. congruence.
Qed.

Lemma update_teams (userId : ObjectId) (t d z : option ObjectId) (db : DB) :
  teams (updateUserTeamAndDepartment userId t d z db) = teams db
  /\ departments (updateUserTeamAndDepartment userId t d z db) = departments db
  /\ zones (updateUserTeamAndDepartment userId t d z db) = zones db.
Proof. repeat split. Qed.

Lemma foldl_update_lookup (l : list ObjectId) (t d z : option ObjectId)
    (db : DB) (other : ObjectId) :
  users (foldl (fun acc m => updateUserTeamAndDepartment m t d z acc) db l) !! other
  = if bool_decide (other ∈ l)
    then assigned t d z <$> users db !! other
    else users db !! other.
Proof.
  revert db. induction l as [|m l IH]; intros db; cbn [foldl].
  - rewrite bool_decide_eq_false_2 by apply not_elem_of_nil. reflexivity.
  - rewrite IH, update_lookup.
    destruct (decide (other = m)) as [->|Hne].
    + rewrite (bool_decide_eq_true_2 (m = m)) by reflexivity.
      rewrite (bool_decide_eq_true_2 (m ∈ m :: l)) by left.
      destruct (bool_decide (m ∈ l)); [|reflexivity].
      destruct (users db !! m); reflexivity.
    + rewrite (bool_decide_eq_false_2 (other = m)) by assumption.
      destruct (decide (other ∈ l)) as [Hin|Hin].
      * rewrite !bool_decide_eq_true_2; [reflexivity | right; exact Hin | exact Hin].
      * rewrite !bool_decide_eq_false_2; [reflexivity | | exact Hin].
        intros H. apply elem_of_cons in H as [?|?]; contradiction.
Qed.

Lemma foldl_update_teams (l : list ObjectId) (t d z : option ObjectId) (db : DB) :
  teams (foldl (fun acc m => updateUserTeamAndDepartment m t d z acc) db l)
  = teams db.
Proof.
  revert db. induction l as [|m l IH]; intros db; cbn [foldl]; [reflexivity|].
  rewrite IH. reflexivity.
Qed.

(** X20: deleteTeam answers 404 and keeps the store when the team is not
    in it.  Otherwise it answers 200, the team is no longer stored, and
    the user documents are as before except those of the team's leader and
    members, whose team, department and zone are null (name and role are
    kept). *)
Theorem deleteTeam_releases (teamId : ObjectId) (db : DB) :
  (teams db !! teamId = None ->
   deleteTeam teamId db
     = ({| statusCode := 404; message := "Team not found" |}, db))
  /\ (forall deletedTeam, teams db !! teamId = Some deletedTeam ->
      statusCode (fst (deleteTeam teamId db)) = 200
      /\ teams (snd (deleteTeam teamId db)) = delete teamId (teams db)
      /\ forall userId,
           users (snd (deleteTeam teamId db)) !! userId
           = if bool_decide (teamLeader deletedTeam = Some userId
                             \/ userId ∈ members deletedTeam)
             then assigned None None None <$> users db !! userId
             else users db !! userId).
Proof.
  unfold deleteTeam. split.
  - intros ->. reflexivity.
  - intros t ->. split; [reflexivity|]. simpl. split.
    + rewrite foldl_update_teams. destruct (teamLeader t); reflexivity.
    + intros userId. rewrite foldl_update_lookup.
      destruct (teamLeader t) as [l|].
      * rewrite update_lookup. simpl.
        destruct (decide (userId = l)) as [->|Hne].
        -- rewrite (bool_decide_eq_true_2 (l = l)) by reflexivity.
           rewrite (bool_decide_eq_true_2 (Some l = Some l \/ _)) by (left; reflexivity).
           destruct (bool_decide (l ∈ members t)); [|reflexivity].
           destruct (users db !! l); reflexivity.
        -- rewrite (bool_decide_eq_false_2 (userId = l)) by assumption.
           apply (f_equal (fun b : bool => if b then _ else _)).
           apply bool_decide_ext. split; [tauto|].
           intros [[= ->]|?]; [contradiction | assumption].
      * apply (f_equal (fun b : bool => if b then _ else _)).
        apply bool_decide_ext. split; [tauto|].
        intros [?|?]; [discriminate | assumption].
Qed.


(** X21: createTeam either answers 400 and leaves the store as it was, or
    answers 201; then the id was free, the team is stored under it with
    the department, leader and members of the request, and every stored
    user who is the leader or a member named by the request points to
    the new team and its department, name and role kept. *)
Theorem createTeam_all_or_nothing (validTeam : Team -> bool) (newId : ObjectId)
    (body : TeamBody) (db : DB) :
  (statusCode (fst (createTeam validTeam newId body db)) = 400
   /\ snd (createTeam validTeam newId body db) = db)
  \/ (statusCode (fst (createTeam validTeam newId body db)) = 201
      /\ teams db !! newId = None
      /\ exists dep,
          b_department body = val dep
          /\ teams (snd (createTeam validTeam newId body db))
             = <[newId := {| t_name := b_name body;
                             t_department := Some dep;
                             teamLeader := orNull (b_teamLeader body);
                             members := membersOrEmpty (b_members body) |}]>
                 (teams db)
          /\ forall userId user,
               users db !! userId = Some user ->
               orNull (b_teamLeader body) = Some userId
               \/ userId ∈ membersOrEmpty (b_members body) ->
               exists user',
                 users (snd (createTeam validTeam newId body db)) !! userId
                   = Some user'
                 /\ team user' = Some newId
                 /\ department user' = Some dep
                 /\ name user' = name user /\ role user' = role user).
Proof.
  unfold createTeam.
  destruct (b_department body) as [| |dep] eqn:Hdep; simpl;
    try (left; split; reflexivity).
  destruct (departments db !! dep) as [existing|]; [|left; split; reflexivity].
  match goal with
  | |- context [match ?e with Some r => (r, db) | None => _ end] =>
      destruct e as [r|] eqn:Hl
  end.
  { left. split; [|reflexivity].
    destruct (b_teamLeader body); try discriminate. unfold checkLeader in Hl.
    destruct (users db !! o); [|injection Hl as <-; reflexivity].
    destruct (negb _); [injection Hl as <-; reflexivity|].
    destruct (leadsAnotherTeam _ _ _); [injection Hl as <-; reflexivity | discriminate]. }
  destruct (negb (validTeam _)); [left; split; reflexivity|].
  destruct (nameTaken _ _ _); [left; split; reflexivity|].
  destruct (bool_decide _) eqn:B; [left; split; reflexivity|].
  right. simpl. split; [reflexivity|]. split.
  { apply bool_decide_eq_false in B. destruct (teams db !! newId); [|reflexivity].
    exfalso. apply B. eauto. }
  exists dep. split; [reflexivity|]. split.
  { rewrite foldl_update_teams. destruct (b_teamLeader body); reflexivity. }
  intros userId user Hu Hin. rewrite foldl_update_lookup.
  destruct (decide (userId ∈ membersOrEmpty (b_members body))) as [Hm|Hm].
  - rewrite bool_decide_eq_true_2 by assumption.
    destruct (b_teamLeader body) as [| |l]; try rewrite update_lookup; simpl;
      try (rewrite Hu; simpl; eexists; split; [reflexivity|]; repeat split).
    destruct (bool_decide (userId = l)); rewrite Hu; simpl;
      eexists; (split; [reflexivity|]); repeat split.
  - rewrite bool_decide_eq_false_2 by assumption.
    destruct Hin as [Hl'|?]; [|contradiction].
    destruct (b_teamLeader body) as [| |l]; try discriminate.
    injection Hl' as ->. rewrite update_lookup.
    rewrite bool_decide_eq_true_2 by reflexivity. simpl. rewrite Hu. simpl.
    eexists. split; [reflexivity|]. repeat split.
Qed.

(** X22: transferUser answers 404 and keeps the store when the user is not
    in it; whatever it answers, no other user document, no department and
    no zone is touched. *)
Theorem transferUser_frame (userId : ObjectId) (body : TransferBody) (db : DB) :
  (users db !! userId = None ->
   transferUser userId body db
     = ({| statusCode := 404; message := "User not found." |}, db))
  /\ (forall other, other <> userId ->
        users (snd (transferUser userId body db)) !! other = users db !! other)
  /\ departments (snd (transferUser userId body db)) = departments db
  /\ zones (snd (transferUser userId body db)) = zones db.
Proof.
  unfold transferUser. destruct (users db !! userId) as [user|].
  2: { repeat split. }
  split; [discriminate|].
  assert (forall a b, departments (unassignFromOriginalTeam userId a b db)
                      = departments db
                      /\ zones (unassignFromOriginalTeam userId a b db) = zones db)
    as Hd.
  { intros a b. unfold unassignFromOriginalTeam. destruct a; [|split; reflexivity].
    destruct (differsFrom _ _); [|split; reflexivity].
    destruct (teams db !! o); split; reflexivity. }
  destruct (newTeamId body) as [| |nt] eqn:Hnt; simpl.
  1,2: split; [intros other Ho; rewrite lookup_alter_ne by congruence;
               apply (f_equal (fun m => m !! other)), users_unassign
              | apply Hd].
  destruct (teams _ !! nt); simpl.
  - split; [intros other Ho; rewrite lookup_alter_ne by congruence;
            apply (f_equal (fun m => m !! other)), users_unassign
           | apply Hd].
  - split; [intros other Ho;
            apply (f_equal (fun m => m !! other)), users_unassign
           | apply Hd].
Qed.



End TeamFacts.

(** * The pattern of a plain business name *)

Module PatternFacts.

Import Regex Vocabulary.

Lemma quantified_plain (a : regex) (c : ascii) (rest : string) :
  isSyntaxChar c = false \/ c = "$"%char ->
  quantified a (String c rest) = Some (a, String c rest).
Proof.
  intros [H | ->]; [|reflexivity].
  each_char c; try discriminate H; reflexivity.
Qed.

Lemma unquantified_plain (a : regex) (c : ascii) (rest : string) :
  isSyntaxChar c = false \/ c = "$"%char ->
  unquantified a (String c rest) = Some (a, String c rest).
Proof.
  intros [H | ->]; [|reflexivity].
  each_char c; try discriminate H; reflexivity.
Qed.

Lemma parseTerm_plain (fuel : nat) (c : ascii) (rest : string) :
  isSyntaxChar c = false ->
  parseTerm (S fuel) (String c rest) = quantified (Chr c) rest.
Proof. intros H. each_char c; try discriminate H; reflexivity. Qed.

Lemma parseAlternative_plain (fuel : nat) (c : ascii) (rest : string) :
  isSyntaxChar c = false \/ c = "$"%char \/ c = "^"%char ->
  parseAlternative (S fuel) (String c rest)
  = match parseTerm fuel (String c rest) with
    | Some (t, rest1) =>
        match parseAlternative fuel rest1 with
        | Some (r, rest2) => Some (Seq t r, rest2)
        | None => None
        end
    | None => None
    end.
Proof.
  intros [H | [-> | ->]]; try reflexivity.
  each_char c; try discriminate H; reflexivity.
Qed.

Lemma head_plain (n : string) :
  allPlain n = true ->
  exists c rest, (n ++ "$")%string = String c rest
                 /\ (isSyntaxChar c = false \/ c = "$"%char).
Proof.
  destruct n as [|c r]; simpl.
  - intros _. exists "$"%char, EmptyString. split; [reflexivity | right; reflexivity].
  - intros H. apply andb_prop in H as [H _]. apply negb_true_iff in H.
    exists c, (r ++ "$")%string. split; [reflexivity | left; exact H].
Qed.

Lemma parseAlternative_literal (n : string) (fuel : nat) :
  allPlain n = true ->
  String.length n + 2 <= fuel ->
  parseAlternative fuel (n ++ "$") = Some (literal n, EmptyString).
Proof.
  revert fuel. induction n as [|c r IH]; intros fuel Hp Hf.
  - destruct fuel as [|[|fuel]]; try (simpl in Hf; lia). reflexivity.
  - destruct fuel as [|[|fuel]]; try (simpl in Hf; lia).
    simpl in Hp. apply andb_prop in Hp as [Hc Hr]. apply negb_true_iff in Hc.
    change (String c r ++ "$")%string with (String c (r ++ "$")).
    rewrite parseAlternative_plain by (left; exact Hc).
    rewrite parseTerm_plain by exact Hc.
    destruct (head_plain r Hr) as (c' & rest & E & Hc'). rewrite E.
    rewrite quantified_plain by exact Hc'. rewrite <- E.
    rewrite IH; [reflexivity | exact Hr | simpl in Hf; lia].
Qed.

Lemma parse_plain (n : string) :
  allPlain n = true ->
  parse ("^" ++ n ++ "$") = Some (Seq Bol (literal n)).
Proof.
  intros Hp. unfold parse.
  change ("^" ++ n ++ "$")%string with (String "^" (n ++ "$")).
  change (String.length (String "^" (n ++ "$"))) with (S (String.length (n ++ "$"))).
  rewrite StringFacts.length_append. simpl String.length.
  replace (3 * S (String.length n + 1) + 3) with (S (S (S (String.length n + 2 + (2 * String.length n + 4))))) by lia.
  set (f := String.length n + 2 + (2 * String.length n + 4)).
  cbn [parseDisjunction].
  rewrite parseAlternative_plain by (right; right; reflexivity).
  destruct (head_plain n Hp) as (c' & rest & E & Hc').
  change (parseTerm (S f) (String "^" (n ++ "$")))
    with (unquantified Bol (n ++ "$")).
  rewrite E, unquantified_plain by exact Hc'. rewrite <- E.
  rewrite parseAlternative_literal; [reflexivity | exact Hp | unfold f; lia].
Qed.

Lemma matches_literal (whole : nat) (n s : string) :
  matches true whole (literal n) s (fun _ => true) = true
  <-> foldString s = foldString n.
Proof.
  revert s. induction n as [|c r IH]; intros s; simpl.
  - destruct s; simpl; split; congruence.
  - destruct s as [|d rest]; simpl; [split; discriminate|].
    unfold sameChar. rewrite andb_true_iff, IH, Ascii.eqb_eq.
    split; [intros [-> ->]; reflexivity | intros [= -> ->]; split; reflexivity].
Qed.

Lemma search_anchored (whole : nat) (r : regex) (s : string) :
  String.length s < whole ->
  search true whole (Seq Bol r) s = false.
Proof.
  induction s as [|c s IH]; intros H; cbn [search matches String.length] in *.
  - rewrite (proj2 (Nat.eqb_neq 0 whole)) by lia. reflexivity.
  - rewrite (proj2 (Nat.eqb_neq (S (String.length s)) whole)) by lia.
    cbn [andb orb]. apply IH. lia.
Qed.

Lemma test_literal (n s : string) :
  test true (Seq Bol (literal n)) s = true <-> foldString s = foldString n.
Proof.
  unfold test. rewrite <- (matches_literal (String.length s)).
  destruct s as [|c s]; cbn [search matches String.length].
  - rewrite Nat.eqb_refl, orb_false_r. reflexivity.
  - rewrite Nat.eqb_refl. cbn [andb].
    rewrite search_anchored by (cbn [String.length]; lia).
    rewrite orb_false_r. reflexivity.
Qed.

End PatternFacts.

(** * The account store *)

Module AccountStoreFacts.

Import Accounts Scenarios Vocabulary Cases PatternFacts.



(** X25: for a request body made of the keys of [AccountData], with a
    business name of ASCII characters, none of them of the pattern syntax
    or a line terminator, when every stored business name is of ASCII
    characters without a line terminator and none of them is the name of
    the request up to the case of letters, create does not answer 409: it
    answers 201 and stores the account under the new id with the status of
    the request, or Active, or it answers 400 or 500 and the store is as
    it was. *)
Theorem create_plain_name_free (strict : bool) (now : Z) (newId : ObjectId)
    (users : gmap ObjectId Org.User) (data : AccountData)
    (accounts : gmap ObjectId Account) (n : string) :
  d_businessName data = val n ->
  allPlain n = true ->
  asciiText n = true ->
  (forall id a s, accounts !! id = Some a -> businessName a = val s ->
                  asciiText s = true
                  /\ Regex.foldString s <> Regex.foldString n) ->
  exists r accounts',
    create strict now newId users data accounts = Some (r, accounts')
    /\ ((statusCode r = 201
         /\ exists a, accounts' = <[newId := a]> accounts
              /\ businessName a = val n
              /\ status a = default "Active"%string (d_status data)
              /\ followUps a = [] /\ notes a = [])
        \/ ((statusCode r = 400 \/ statusCode r = 500) /\ accounts' = accounts)).
Proof.
  intros Hn Hp _ Hfree. unfold create, namePattern.
  rewrite Hn. simpl templateString. rewrite (parse_plain n Hp). simpl.
  unfold findOneByName.
  destruct (List.find _ (map_to_list accounts)) as [[i b]|] eqn:F.
  - exfalso. apply find_some in F as [Hin Hb].
    apply list_elem_of_In, elem_of_map_to_list in Hin.
    destruct (businessName b) as [| |sb] eqn:Eb; try discriminate.
    apply test_literal in Hb. exact (proj2 (Hfree i b sb Hin Eb) Hb).
  - destruct (negb (validAccount _)).
    { eexists. eexists. split; [reflexivity|]. right. split; [left|]; reflexivity. }
    destruct (_ || _).
    { eexists. eexists. split; [reflexivity|]. right. split; [right|]; reflexivity. }
    eexists. eexists. split; [reflexivity|]. left. split; [reflexivity|].
    eexists. split; [reflexivity|]. repeat split.
Qed.

Lemma create_plain_name_free_witness :
  (exists r accounts',
     create true 7 2%N (Org.users office) liftWorks {[ 1%N := megaCrane ]}
       = Some (r, accounts')
     /\ ((statusCode r = 201
          /\ exists a, accounts' = <[2%N := a]> {[ 1%N := megaCrane ]}
               /\ businessName a = val "Lift Works"%string
               /\ status a = "Customer"%string
               /\ followUps a = [] /\ notes a = [])
         \/ ((statusCode r = 400 \/ statusCode r = 500)
             /\ accounts' = {[ 1%N := megaCrane ]})))
  /\ fst <$> create true 7 2%N (Org.users office) liftWorks {[ 1%N := megaCrane ]}
     = Some (answer 201 "")
  /\ (snd <$> create true 7 2%N (Org.users office) liftWorks
                {[ 1%N := megaCrane ]}) ≫= (.!! 2%N)
     = Some {| businessName := val "Lift Works"; contactName := val "Asha";
               contactNumber := val "9111111111"; status := "Customer";
               isCustomer := undefined; assignedTo := None; notes := [];
               followUps := []; updatedAt := 7 |}.
Proof.
  split; [|split; vm_compute; reflexivity].
  apply (create_plain_name_free true 7 2%N (Org.users office) liftWorks
           {[ 1%N := megaCrane ]} "Lift Works");
    [reflexivity | reflexivity | reflexivity |].
  intros id a s Ha Hs.
  apply lookup_singleton_Some in Ha as [_ <-].
  injection Hs as <-. split; [reflexivity | discriminate].
Defined.

(** X26: an account update, by a payload made of the keys of
    [AccountData], of an id that is not in the store answers 400 or 404
    and keeps the store; no account other than the one addressed
    is ever touched; and whatever the answer, the addressed account keeps
    its notes, its follow-ups and its updatedAt stamp, and its business
    name unless the payload brings one. *)
Theorem update_touches_named_paths (strict : bool) (id : ObjectId)
    (data : AccountData) (accounts : gmap ObjectId Account) :
  (accounts !! id = None ->
   (statusCode (fst (update strict id data accounts)) = 400
    \/ statusCode (fst (update strict id data accounts)) = 404)
   /\ snd (update strict id data accounts) = accounts)
  /\ (forall other, other <> id ->
        snd (update strict id data accounts) !! other = accounts !! other)
  /\ (forall a, accounts !! id = Some a ->
        exists a', snd (update strict id data accounts) !! id = Some a'
          /\ notes a' = notes a /\ followUps a' = followUps a
          /\ updatedAt a' = updatedAt a
          /\ (changed (d_businessName data) = false ->
              businessName a' = businessName a)).
Proof.
  unfold update. destruct (negb (validUpdate data)); simpl.
  { split; [intros _; split; [left|]; reflexivity|].
    split; [reflexivity|]. intros a Ha. exists a. repeat split; assumption. }
  destruct (accounts !! id) as [a|] eqn:Ha.
  2: { split; [intros _; split; [right|]; reflexivity|].
       split; [reflexivity | discriminate]. }
  split; [discriminate|].
  match goal with
  | |- context [if ?c then (answer 500 _, _) else _] => destruct c
  end; simpl.
  - split; [reflexivity|]. intros a0 [= <-]. exists a. repeat split; assumption.
  - split; [intros other Ho; apply lookup_insert_ne; congruence|].
    intros a0 [= <-]. eexists. split; [apply lookup_insert_eq|]. simpl.
    repeat split. intros ->. reflexivity.
Qed.

(** X27: the soft delete answers 404 and keeps the store when the id is
    not in it, and never touches another account.  For a stored account it
    either answers 200, and the account is still stored, with status
    Closed, the customer flag false (where the schema stores it), name,
    notes and follow-ups as they were and updatedAt set to now; or it
    answers 500 and the store is as it was. *)
Theorem softDelete_closes (strict : bool) (now : Z) (id : ObjectId)
    (accounts : gmap ObjectId Account) :
  (accounts !! id = None ->
   softDelete strict now id accounts = (answer 404 "Account not found", accounts))
  /\ (forall other, other <> id ->
        snd (softDelete strict now id accounts) !! other = accounts !! other)
  /\ (forall a, accounts !! id = Some a ->
        (statusCode (fst (softDelete strict now id accounts)) = 200
         /\ exists a', snd (softDelete strict now id accounts) !! id = Some a'
              /\ status a' = "Closed"%string
              /\ isCustomer a' = (if strict then isCustomer a else val false)
              /\ businessName a' = businessName a
              /\ notes a' = notes a /\ followUps a' = followUps a
              /\ updatedAt a' = now)
        \/ (statusCode (fst (softDelete strict now id accounts)) = 500
            /\ snd (softDelete strict now id accounts) = accounts)).
Proof.
  unfold softDelete, save. destruct (accounts !! id) as [a|] eqn:Ha.
  2: { split; [reflexivity|]. split; [reflexivity | discriminate]. }
  split; [discriminate|].
  destruct (validAccount _ && _); simpl.
  - split; [intros other Ho; apply lookup_insert_ne; congruence|].
    intros a0 [= <-]. left. split; [reflexivity|].
    eexists. split; [apply lookup_insert_eq|]. repeat split.
  - split; [reflexivity|]. intros a0 _. right. split; reflexivity.
Qed.

(** X28: adding a follow-up to a stored account without a date, or
    without a non-empty note, is answered with 500 and the store is as it
    was; when the answer is 201 the stored follow-ups are the old ones
    followed by the new one, whose status is that of the body or pending,
    and updatedAt is now. *)
Theorem addFollowUp_requires_date_and_note (now : Z) (id : ObjectId)
    (body : FollowUpBody) (accounts : gmap ObjectId Account) (a : Account) :
  accounts !! id = Some a ->
  (present (fb_date body) = false \/ truthyString (fb_note body) = false ->
   addFollowUp now id body accounts
     = (answer 500 "Failed to add follow-up", accounts))
  /\ (statusCode (fst (addFollowUp now id body accounts)) = 201 ->
      exists a', snd (addFollowUp now id body accounts) = <[id := a']> accounts
        /\ followUps a'
           = followUps a
             ++ [{| date := fb_date body; note := fb_note body;
                    addedBy := orNull (fb_addedBy body);
                    f_status := Some (default "pending"%string (fb_status body));
                    f_createdAt := now |}]
        /\ updatedAt a' = now /\ status a' = status a /\ notes a' = notes a).
Proof.
  intros Ha. unfold addFollowUp, save. rewrite Ha. split.
  - intros H.
    assert (validAccount (withFollowUps now a
              (followUps a
               ++ [{| date := fb_date body; note := fb_note body;
                      addedBy := orNull (fb_addedBy body);
                      f_status := Some (default "pending"%string (fb_status body));
                      f_createdAt := now |}])) = false) as ->; [|reflexivity].
    unfold validAccount. simpl. rewrite forallb_app. simpl.
    unfold validFollowUp at 2. simpl.
    destruct H as [-> | ->]; simpl; rewrite ?andb_false_r; reflexivity.
  - destruct (validAccount _ && _); [|discriminate].
    intros _. eexists. split; [reflexivity|]. repeat split.
Qed.

(** X29: a successful update of an account follow-up keeps the length of
    the sequence and every other position, keeps addedBy and createdAt of
    the follow-up, and overwrites date and note with those of the body,
    and the status with the one the body brings. *)
Theorem updateFollowUp_overwrites_status (now : Z) (id : ObjectId) (index : nat)
    (body : FollowUpBody) (accounts : gmap ObjectId Account) (a : Account)
    (old : FollowUp) :
  accounts !! id = Some a ->
  followUps a !! index = Some old ->
  statusCode (fst (updateFollowUp now id index body accounts)) = 200 ->
  exists a' fu,
    snd (updateFollowUp now id index body accounts) = <[id := a']> accounts
    /\ length (followUps a') = length (followUps a)
    /\ followUps a' !! index = Some fu
    /\ date fu = fb_date body /\ note fu = fb_note body
    /\ (forall st, fb_status body = Some st -> f_status fu = Some st)
    /\ addedBy fu = addedBy old /\ f_createdAt fu = f_createdAt old
    /\ (forall j, j <> index -> followUps a' !! j = followUps a !! j).
Proof.
  intros Ha Hi. unfold updateFollowUp, save. rewrite Ha, Hi.
  destruct (validAccount _ && _); [|discriminate].
  intros _. eexists. eexists. split; [reflexivity|]. simpl.
  split; [apply length_insert|].
  split; [apply list_lookup_insert_eq, (lookup_lt_Some _ _ _ Hi)|].
  repeat split; [intros st Hst; exact Hst|].
  intros j Hj. apply list_lookup_insert_ne. congruence.
Qed.

(** X30: addNote answers 404 and keeps the store when the account is not
    in it; when it answers 200 the stored notes are the old ones followed
    by the note of the body, follow-ups and status are as they were and
    updatedAt is now. *)
Theorem addNote_appends (now : Z) (id : ObjectId) (body : NoteBody)
    (accounts : gmap ObjectId Account) :
  (accounts !! id = None ->
   addNote now id body accounts = (answer 404 "Account not found", accounts))
  /\ (forall a, accounts !! id = Some a ->
      statusCode (fst (addNote now id body accounts)) = 200 ->
      exists a', snd (addNote now id body accounts) = <[id := a']> accounts
        /\ notes a' = notes a ++ [{| text := nb_text body;
                                     timestamp := nb_timestamp body;
                                     author := nb_author body |}]
        /\ followUps a' = followUps a /\ status a' = status a
        /\ updatedAt a' = now).
Proof.
  unfold addNote, save. destruct (accounts !! id) as [a|].
  - split; [discriminate|]. intros a0 [= <-].
    destruct (validAccount _ && _); [|discriminate].
    intros _. eexists. split; [reflexivity|]. repeat split.
  - split; [reflexivity | discriminate].
Qed.


Lemma addFollowUp_requires_date_and_note_witness :
  (present (fb_date undated) = false \/ truthyString (fb_note undated) = false ->
   addFollowUp 7 1%N undated {[ 1%N := megaCrane ]}
     = (answer 500 "Failed to add follow-up", {[ 1%N := megaCrane ]}))
  /\ (statusCode (fst (addFollowUp 7 1%N undated {[ 1%N := megaCrane ]})) = 201 ->
      exists a', snd (addFollowUp 7 1%N undated {[ 1%N := megaCrane ]})
                   = <[1%N := a']> {[ 1%N := megaCrane ]}
        /\ followUps a'
           = followUps megaCrane
             ++ [{| date := fb_date undated; note := fb_note undated;
                    addedBy := orNull (fb_addedBy undated);
                    f_status := Some (default "pending"%string (fb_status undated));
                    f_createdAt := 7 |}]
        /\ updatedAt a' = 7%Z /\ status a' = status megaCrane
        /\ notes a' = notes megaCrane).
Proof.
  apply (addFollowUp_requires_date_and_note 7 1%N undated {[ 1%N := megaCrane ]}
           megaCrane). reflexivity.
Defined.

Lemma updateFollowUp_overwrites_status_witness :
  exists a' fu,
    snd (updateFollowUp 7 1%N 0 revisit {[ 1%N := megaCrane ]})
      = <[1%N := a']> {[ 1%N := megaCrane ]}
    /\ length (followUps a') = 1
    /\ followUps a' !! 0 = Some fu
    /\ date fu = val 14%Z /\ note fu = val "second visit"%string
    /\ (forall st, fb_status revisit = Some st -> f_status fu = Some st)
    /\ addedBy fu = Some 1%N /\ f_createdAt fu = 3%Z
    /\ (forall j, j <> 0 -> followUps a' !! j = followUps megaCrane !! j).
Proof.
  apply (updateFollowUp_overwrites_status 7 1%N 0 revisit {[ 1%N := megaCrane ]}
           megaCrane
           {| date := val 12%Z; note := val "site visit"; addedBy := Some 1%N;
              f_status := Some "pending"%string; f_createdAt := 3 |});
    reflexivity.
Defined.

End AccountStoreFacts.
